(** * The RAG sample agents: quiz generator and researcher/uploader

    A shallow embedding of

      - [samples/RAG-sample/src/agents/quiz-generator-RAG.py]
      - [samples/RAG-sample/src/agents/researcher-and-uploader.py]

    Node functions are embedded one to one.  The collaborators they call
    (retriever, language model, researcher sub-process, bucket upload, clock)
    are not part of the repository: every call is recorded as an [Event] in
    the order the code makes it, and what the collaborator answers is an
    argument of the embedded function.  Debug output written with [print]
    is left out.

    The two files run on LangGraph and Pydantic.  What the embedding takes
    from them:

      - a node's result is merged into the state: a key written replaces the
        one held, [messages] goes through the reducer of [MessagesState],
        which adds the written messages after the ones held;
      - a key of the state that no node has written is absent from the
        dictionary a node is handed;
      - after a node, its outgoing edges are followed, a conditional edge by
        calling its function on the state as updated; the [goto] of a
        Command adds branches to these edges and END, not being a node, adds
        none;
      - [interrupt] hands its argument out of the run and returns what the
        run is resumed with;
      - a model's fields are validated in the order the class declares them,
        and a field's validator is handed the fields validated before it. *)

From Stdlib Require Import ZArith List Bool Lia DecimalString DecimalPos DecimalZ.
From Stdlib Require Import Floats.PrimFloat.
From stdpp Require Import base option list strings gmap.
Import ListNotations.

Local Open Scope string_scope.
Local Open Scope list_scope.

(** ** Python runtime conventions used by both agents *)

Module Py.

(** Exceptions that the two files raise, catch or let through.  [OtherError]
    stands for any exception class of a collaborator that the code names
    nowhere. *)
Inductive Exn : Type :=
| IngestionInProgressException (message : string)
| Exception (message : string)
| ValueError (message : string)
| ValidationError (model : string)
| OutputParserException
| KeyError (key : string)
| IndexError
| OtherError (name : string).

Inductive Res (A : Type) : Type :=
| Ok (a : A)
| Raise (e : Exn).
Arguments Ok {A} a.
Arguments Raise {A} e.

(** A key of a state dictionary: a TypedDict built with only some of its
    keys has the others absent, and [d["k"]] and [d.get("k", None)] differ
    there. *)
Inductive Entry (A : Type) : Type :=
| Absent
| Present (v : A).
Arguments Absent {A}.
Arguments Present {A} v.

(** [d["k"]] *)
Definition getitem {A} (key : string) (e : Entry A) : Res A :=
  match e with
  | Present v => Ok v
  | Absent => Raise (KeyError key)
  end.

(** [d.get("k", None)] for a key holding an Optional value *)
Definition get_or_None {A} (e : Entry (option A)) : option A :=
  match e with
  | Present v => v
  | Absent => None
  end.

(** [x == "lit"] for [x : Optional[str]] *)
Definition eq_str (x : option string) (lit : string) : bool :=
  match x with
  | Some s => String.eqb s lit
  | None => false
  end.

(** [f"{x}"] for [x : Optional[str]] *)
Definition format_opt (x : option string) : string :=
  match x with
  | Some s => s
  | None => "None"
  end.

(** [f"{n}"] for integers *)
Definition format_nat (n : nat) : string := NilZero.string_of_uint (Nat.to_uint n).
Definition format_int (z : Z) : string := NilZero.string_of_int (Z.to_int z).

(** [l[-1]] *)
Definition last_item {A} (l : list A) : Res A :=
  match last l with
  | Some x => Ok x
  | None => Raise IndexError
  end.

(** [x is None] *)
Definition is_None {A} (x : option A) : bool :=
  match x with
  | None => true
  | Some _ => false
  end.

End Py.
Export Py.

(** ** Calls to collaborators, and the effect monad *)

Inductive Message : Type :=
| HumanMessage (content : string)
| AIMessage (content : string)
| SystemMessage (content : string).

Definition content_of (m : Message) : string :=
  match m with
  | HumanMessage c | AIMessage c | SystemMessage c => c
  end.

(** The reducer of [MessagesState.messages]: written messages are added
    after the ones held. *)
Definition add_messages (held written : list Message) : list Message :=
  held ++ written.

(** [langchain_core.documents.Document], as far as the agents look at it. *)
Record Document : Type := { page_content : string }.

(** [InvokeProcess(name=..., input_arguments={...})] *)
Record InputArguments : Type := {
  arg_messages : list Message;
  arg_bucket_name : string;
  arg_bucket_folder : option string;
}.

Record InvokeProcess : Type := {
  name : string;
  input_arguments : InputArguments;
}.

(** [uipath.buckets.upload_from_memory(...)] *)
Record UploadCall : Type := {
  up_bucket_name : string;
  blob_file_path : string;
  content_type : string;
  content : string;
}.

Inductive Event : Type :=
| EvInterrupt (p : InvokeProcess)
| EvGetOrCreateIndex (index_name storage_bucket_name : string)
| EvIngestData (index_name : string)
| EvRetrieve (index_name : string) (number_of_results : nat) (query : string)
| EvLogInfo (line : string)
| EvSleep (seconds : nat)
| EvLlmInvoke (quiz_topic : string) (context : list Document)
| EvAgentInvoke (messages : list Message)
| EvUpload (call : UploadCall).

(** A computation writes the calls it makes, in order, and returns or
    raises. *)
Definition Eff (A : Type) : Type := list Event * Res A.

Definition ret {A} (a : A) : Eff A := ([], Ok a).
Definition raise {A} (e : Exn) : Eff A := ([], Raise e).
Definition emit (ev : Event) : Eff unit := ([ev], Ok tt).
Definition lift {A} (r : Res A) : Eff A := ([], r).

Definition bind {A B} (m : Eff A) (k : A -> Eff B) : Eff B :=
  match m with
  | (t, Ok a) => let (t', r) := k a in (t ++ t', r)
  | (t, Raise e) => (t, Raise e)
  end.

Declare Scope eff_scope.
Delimit Scope eff_scope with eff.
Notation "x <- m ;; k" := (bind m (fun x => k))
  (at level 100, m at next level, right associativity) : eff_scope.
Notation "m ;; k" := (bind m (fun _ => k))
  (at level 100, right associativity) : eff_scope.

Definition trace {A} (m : Eff A) : list Event := fst m.
Definition result {A} (m : Eff A) : Res A := snd m.

(** What a collaborator answers to one call. *)
Inductive Answer (A : Type) : Type :=
| Returns (a : A)
| Raises (e : Exn).
Arguments Returns {A} a.
Arguments Raises {A} e.

(** ** quiz-generator-RAG.py *)

Module QuizGenerator.

(** *** Data schemas (lines 19-47) *)

Record QuizItem : Type := {
  question : string;
  difficulty : float;
  answer : string;
}.

Record Quiz : Type := { quiz_items : list QuizItem }.

Record QuizOrInsufficientInfo : Type := {
  quiz : option Quiz;
  additional_info : option string;
}.

(** [difficulty: float = Field(..., ge=0.0, le=1.0)] *)
Definition QuizItem_validate (item : QuizItem) : Res QuizItem :=
  if (PrimFloat.leb 0 (difficulty item) && PrimFloat.leb (difficulty item) 1)%bool
  then Ok item
  else Raise (ValidationError "QuizItem").

Fixpoint validate_items (items : list QuizItem) : Res (list QuizItem) :=
  match items with
  | [] => Ok []
  | item :: rest =>
      match QuizItem_validate item with
      | Raise e => Raise e
      | Ok item' =>
          match validate_items rest with
          | Raise e => Raise e
          | Ok rest' => Ok (item' :: rest')
          end
      end
  end.

Definition Quiz_validate (q : Quiz) : Res Quiz :=
  match validate_items (quiz_items q) with
  | Raise e => Raise e
  | Ok items => Ok {| quiz_items := items |}
  end.

(** The values a validator is handed in [values]: the fields of the model
    validated so far. *)
Inductive FieldValue : Type :=
| QuizValue (v : option Quiz)
| StrValue (v : option string).

(** [values.get(key) == lit] *)
Definition values_get_eq (values : gmap string FieldValue) (key lit : string) : bool :=
  match values !! key with
  | Some (StrValue (Some s)) => String.eqb s lit
  | _ => false
  end.

(** Lines 41-45: the validator of field [quiz]. *)
Definition check_quiz (v : option Quiz) (values : gmap string FieldValue)
  : Res (option Quiz) :=
  if (values_get_eq values "additional_info" "false" && is_None v)%bool
  then Raise (ValueError "Quiz should be None when additional_info is not 'false'")
  else Ok v.

(** The decoded JSON object handed to the model: both keys, each null or a
    value of the field's shape. *)
Record RawFields : Type := {
  raw_quiz : option Quiz;
  raw_additional_info : option string;
}.

Definition validate_optional_quiz (v : option Quiz) : Res (option Quiz) :=
  match v with
  | None => Ok None
  | Some q =>
      match Quiz_validate q with
      | Raise e => Raise e
      | Ok q' => Ok (Some q')
      end
  end.

(** Construction of a [QuizOrInsufficientInfo].  Pydantic validates the
    fields in the order the class declares them, [quiz] (line 34) before
    [additional_info] (line 37), and hands a field's validator the fields
    validated before it: [check_quiz] runs on the values collected so far. *)
Definition QuizOrInsufficientInfo_validate (raw : RawFields) : Res QuizOrInsufficientInfo :=
  let values : gmap string FieldValue := ∅ in
  match validate_optional_quiz (raw_quiz raw) with
  | Raise e => Raise e
  | Ok v =>
      match check_quiz v values with
      | Raise _ => Raise (ValidationError "QuizOrInsufficientInfo")
      | Ok v' =>
          let values := <["quiz" := QuizValue v']> values in
          let a := raw_additional_info raw in
          let values := <["additional_info" := StrValue a]> values in
          Ok {| quiz := v'; additional_info := a |}
      end
  end.

(** The text the language model answered with: either no JSON object can be
    read from it, or it decodes to the fields of the model. *)
Inductive LlmContent : Type :=
| NotJson (text : string)
| JsonObject (fields : RawFields).

(** [output_parser.parse] (line 47, used at line 142): every failure
    surfaces as the parser's own exception. *)
Definition output_parser_parse (content : LlmContent) : Res QuizOrInsufficientInfo :=
  match content with
  | NotJson _ => Raise OutputParserException
  | JsonObject fields =>
      match QuizOrInsufficientInfo_validate fields with
      | Raise _ => Raise OutputParserException
      | Ok r => Ok r
      end
  end.

(** *** Workflow schemas (lines 62-79) *)

Record GraphOutput : Type := { out_quiz : Quiz }.

(** [GraphOutput(quiz=v)]: the field is a required [Quiz]. *)
Definition GraphOutput_validate (v : option Quiz) : Res GraphOutput :=
  match v with
  | Some q => Ok {| out_quiz := q |}
  | None => Raise (ValidationError "GraphOutput")
  end.

Record GraphInput : Type := {
  in_general_category : string;
  in_quiz_topic : string;
  in_bucket_name : string;
  in_index_name : string;
  in_bucket_folder : option string;
}.

(** [GraphState(MessagesState)]: a dictionary.  [messages] always holds a
    list; the keys that [prepare_input] leaves out can be absent. *)
Record GraphState : Type := {
  st_messages : list Message;
  st_general_category : string;
  st_quiz_topic : string;
  st_bucket_name : string;
  st_bucket_folder : Entry (option string);
  st_index_name : string;
  st_additional_info : Entry (option string);
  st_quiz : Entry (option Quiz);
}.

(** *** Commands and state updates *)

Inductive NodeName : Type :=
| START
| END
| Node_prepare_input
| Node_invoke_researcher
| Node_create_quiz
| Node_return_quiz.

(** The [update] dictionary of a Command: the keys it writes. *)
Record Update : Type := {
  upd_messages : option (list Message);
  upd_quiz : option (option Quiz);
  upd_additional_info : option (option string);
}.

Definition no_update : Update :=
  {| upd_messages := None; upd_quiz := None; upd_additional_info := None |}.

Record Command : Type := {
  update : Update;
  goto : option NodeName;
}.

(** Merging an update into the state: [messages] through its reducer, any
    other key written replaces the one held. *)
Definition apply_update (u : Update) (state : GraphState) : GraphState :=
  {| st_messages :=
       match upd_messages u with
       | Some ms => add_messages (st_messages state) ms
       | None => st_messages state
       end;
     st_general_category := st_general_category state;
     st_quiz_topic := st_quiz_topic state;
     st_bucket_name := st_bucket_name state;
     st_bucket_folder := st_bucket_folder state;
     st_index_name := st_index_name state;
     st_additional_info :=
       match upd_additional_info u with
       | Some a => Present a
       | None => st_additional_info state
       end;
     st_quiz :=
       match upd_quiz u with
       | Some q => Present q
       | None => st_quiz state
       end |}.

(** Branches a Command adds to the edges of the node that returns it: one
    for each node named in [goto].  END is the end of a run and not a node:
    naming it adds no branch, and the node's own edges are followed as
    without it. *)
Definition goto_branches (c : Command) : list NodeName :=
  match goto c with
  | None | Some END => []
  | Some n => [n]
  end.

(** *** Nodes (lines 81-167) *)

(** Lines 81-88: [messages], [bucket_folder] and [quiz] are not written. *)
Definition prepare_input (state : GraphInput) : GraphState :=
  {| st_messages := [];
     st_general_category := in_general_category state;
     st_quiz_topic := in_quiz_topic state;
     st_bucket_name := in_bucket_name state;
     st_bucket_folder := Absent;
     st_index_name := in_index_name state;
     st_additional_info := Present (Some "false");
     st_quiz := Absent |}.

Definition set_messages (ms : list Message) (state : GraphState) : GraphState :=
  {| st_messages := ms;
     st_general_category := st_general_category state;
     st_quiz_topic := st_quiz_topic state;
     st_bucket_name := st_bucket_name state;
     st_bucket_folder := st_bucket_folder state;
     st_index_name := st_index_name state;
     st_additional_info := st_additional_info state;
     st_quiz := st_quiz state |}.

(** What the researcher process hands back on resume. *)
Record AgentResponse : Type := { resp_messages : list Message }.

(** Lines 92-104: the request is appended to the state's own message list,
    and that list goes into the arguments of the sub-process. *)
Definition invoke_researcher_request (state : GraphState)
  : Res (GraphState * InvokeProcess) :=
  let request :=
    if negb (eq_str (get_or_None (st_additional_info state)) "false")
    then match getitem "additional_info" (st_additional_info state) with
         | Ok a => Ok (format_opt a)
         | Raise e => Raise e
         end
    else Ok ("Fetch data about " +:+ st_general_category state) in
  match request with
  | Raise e => Raise e
  | Ok text =>
      let state := set_messages (st_messages state ++ [HumanMessage text]) state in
      Ok (state,
          {| name := "researcher-and-uploader-agent";
             input_arguments :=
               {| arg_messages := st_messages state;
                  arg_bucket_name := st_bucket_name state;
                  arg_bucket_folder := get_or_None (st_bucket_folder state) |} |})
  end.

(** Lines 105-109.  The pair [("user", text)] is a human message. *)
Definition invoke_researcher_resume (state : GraphState) (agent_response : AgentResponse)
  : Res Command :=
  match last_item (resp_messages agent_response) with
  | Raise e => Raise e
  | Ok m =>
      let quiz_topic := st_quiz_topic state in
      Ok {| update :=
              {| upd_messages := Some [m; HumanMessage ("create a quiz about " +:+ quiz_topic)];
                 upd_quiz := None;
                 upd_additional_info := None |};
            goto := None |}
  end.

(** Lines 90-109.  [interrupt] hands the request out; with no answer yet the
    node stops there ([None]), with one it goes on to its Command. *)
Definition invoke_researcher (state : GraphState) (agent_response : option AgentResponse)
  : Eff (GraphState * option Command) :=
  (sp <- lift (invoke_researcher_request state) ;;
   emit (EvInterrupt (snd sp)) ;;
   match agent_response with
   | None => ret (fst sp, None)
   | Some response =>
       cmd <- lift (invoke_researcher_resume (fst sp) response) ;;
       ret (fst sp, Some cmd)
   end)%eff.

(** Lines 117-129: the loop.  [retriever k] is what the [k]-th call of the
    retriever in this step answers; the result is [context_data] when the
    loop is left. *)
Fixpoint retrieval_loop (state : GraphState) (retriever : nat -> Answer (list Document))
    (attempt no_of_retries : nat) : Eff (option (list Document)) :=
  match no_of_retries with
  | O => ret None
  | S retries_left =>
      (emit (EvRetrieve (st_index_name state) 10 (st_quiz_topic state)) ;;
       match retriever attempt with
       | Returns documents => ret (Some documents)
       | Raises (IngestionInProgressException message) =>
           emit (EvLogInfo message) ;;
           emit (EvLogInfo (format_nat retries_left +:+ " retries left")) ;;
           emit (EvSleep 5) ;;
           retrieval_loop state retriever (S attempt) retries_left
       | Raises e => raise e
       end)%eff
  end.

(** Lines 113-131: the loop started with 5 retries, then
    [if not context_data: raise]: [None] and the empty list are both false. *)
Definition retrieve_context (state : GraphState) (retriever : nat -> Answer (list Document))
  : Eff (list Document) :=
  (context_data <- retrieval_loop state retriever 0 5 ;;
   match context_data with
   | Some (d :: ds) => ret (d :: ds)
   | Some [] | None => raise (Exception "Ingestion is taking too long!")
   end)%eff.

(** Lines 148-151. *)
Definition llm_response_update (llm_response : QuizOrInsufficientInfo) : Update :=
  {| upd_messages := None;
     upd_quiz :=
       Some (if eq_str (additional_info llm_response) "false"
             then quiz llm_response else None);
     upd_additional_info := Some (additional_info llm_response) |}.

(** Lines 111-155.  [llm_content] is the content of what [llm.invoke]
    returns; the prompt is recorded by the values filled into it. *)
Definition create_quiz (state : GraphState) (retriever : nat -> Answer (list Document))
    (llm_content : LlmContent) : Eff Command :=
  (emit (EvGetOrCreateIndex (st_index_name state) (st_bucket_name state)) ;;
   emit (EvIngestData (st_index_name state)) ;;
   context_data <- retrieve_context state retriever ;;
   emit (EvLlmInvoke (st_quiz_topic state) context_data) ;;
   match output_parser_parse llm_content with
   | Ok llm_response =>
       ret {| update := llm_response_update llm_response; goto := None |}
   | Raise _ =>
       ret {| update := no_update; goto := Some END |}
   end)%eff.

(** [Literal["invoke_researcher", "return_quiz"]] *)
Inductive Branch : Type :=
| To_invoke_researcher
| To_return_quiz.

(** Lines 157-162. *)
Definition check_quiz_creation (state : GraphState) : Res Branch :=
  match getitem "additional_info" (st_additional_info state) with
  | Raise e => Raise e
  | Ok a => if negb (eq_str a "false") then Ok To_invoke_researcher else Ok To_return_quiz
  end.

(** Lines 164-167. *)
Definition return_quiz (state : GraphState) : Res GraphOutput :=
  match getitem "quiz" (st_quiz state) with
  | Raise e => Raise e
  | Ok v => GraphOutput_validate v
  end.

(** *** The graph (lines 170-183) *)

(** One pass through [invoke_researcher] and [create_quiz] takes one
    researcher answer, the retriever's answers and one model answer. *)
Record Round : Type := {
  agent_response : AgentResponse;
  retriever : nat -> Answer (list Document);
  llm_content : LlmContent;
}.

Inductive Outcome : Type :=
| Finished (output : GraphOutput)
| Suspended (state : GraphState).

(** The run from node [invoke_researcher] on.  Edges:
    [invoke_researcher -> create_quiz] (line 178), the conditional edge
    [check_quiz_creation] out of [create_quiz] (line 179) and
    [return_quiz -> END] (line 180).  The Commands of [create_quiz] carry no
    [goto] or END, which adds no branch ([goto_branches]): the conditional
    edge decides where the run goes on, on the state as updated. *)
Fixpoint from_invoke_researcher (script : list Round) (state : GraphState) : Eff Outcome :=
  match script with
  | [] =>
      (r <- invoke_researcher state None ;;
       ret (Suspended (fst r)))%eff
  | round :: script' =>
      (r <- invoke_researcher state (Some (agent_response round)) ;;
       match snd r with
       | None => ret (Suspended (fst r))
       | Some cmd =>
           let state := apply_update (update cmd) (fst r) in
           cmd <- create_quiz state (retriever round) (llm_content round) ;;
           let state := apply_update (update cmd) state in
           next <- lift (check_quiz_creation state) ;;
           match next with
           | To_invoke_researcher => from_invoke_researcher script' state
           | To_return_quiz =>
               output <- lift (return_quiz state) ;;
               ret (Finished output)
           end
       end)%eff
  end.

(** [graph]: [START -> prepare_input -> invoke_researcher] (lines 176-177),
    run against the answers of [script]. *)
Definition graph (input : GraphInput) (script : list Round) : Eff Outcome :=
  from_invoke_researcher script (prepare_input input).

End QuizGenerator.

(** ** researcher-and-uploader.py *)

Module ResearcherUploader.

(** [MessagesState] *)
Record MessagesState : Type := { ms_messages : list Message }.

(** Lines 21-28. *)
Record GraphInput : Type := {
  in_messages : list Message;
  in_bucket_name : string;
  in_bucket_folder : Entry (option string);
}.

Record GraphState : Type := {
  st_messages : list Message;
  st_web_results : string;
  st_bucket_name : string;
  st_bucket_folder : option string;
}.

(** Lines 30-36. *)
Definition prepare_input (state : GraphInput) : GraphState :=
  {| st_messages := in_messages state;
     st_web_results := "";
     st_bucket_name := in_bucket_name state;
     st_bucket_folder := get_or_None (in_bucket_folder state) |}.

(** What [research_agent.invoke] returns. *)
Record AgentResult : Type := { res_messages : list Message }.

(** Lines 38-44: the Command writes [web_results] only. *)
Definition research_node (state : GraphState) (agent_result : AgentResult) : Eff GraphState :=
  (emit (EvAgentInvoke (st_messages state)) ;;
   m <- lift (last_item (res_messages agent_result)) ;;
   let web_results := content_of m in
   ret {| st_messages := st_messages state;
          st_web_results := web_results;
          st_bucket_name := st_bucket_name state;
          st_bucket_folder := st_bucket_folder state |})%eff.

Definition acknowledgment : Message :=
  AIMessage "Relevant information uploaded to bucket.".

(** Lines 46-54.  [current_timestamp] is [int(time.time())]. *)
Definition upload_to_bucket (state : GraphState) (current_timestamp : Z) : Eff MessagesState :=
  (emit (EvUpload {| up_bucket_name := st_bucket_name state;
                     blob_file_path := format_int current_timestamp +:+ ".txt";
                     content_type := "application/txt";
                     content := st_web_results state |}) ;;
   ret {| ms_messages := [acknowledgment] |})%eff.

(** Lines 58-69: [START -> prepare_input -> researcher -> upload_to_bucket
    -> END].  What the last node returns is merged into the state, its
    messages through the reducer of [MessagesState]; the output is the
    [messages] of the state. *)
Definition graph (input : GraphInput) (agent_result : AgentResult) (current_timestamp : Z)
  : Eff MessagesState :=
  (let state := prepare_input input in
   state <- research_node state agent_result ;;
   returned <- upload_to_bucket state current_timestamp ;;
   ret {| ms_messages :=
            add_messages (st_messages state) (ms_messages returned) |})%eff.

End ResearcherUploader.

(** ** Reading a trace *)

Definition is_llm_invoke (ev : Event) : bool :=
  match ev with EvLlmInvoke _ _ => true | _ => false end.

Definition is_retrieve (ev : Event) : bool :=
  match ev with EvRetrieve _ _ _ => true | _ => false end.

(** The waits of a trace, in order, each with its length. *)
Fixpoint sleeps (t : list Event) : list nat :=
  match t with
  | [] => []
  | EvSleep seconds :: t' => seconds :: sleeps t'
  | _ :: t' => sleeps t'
  end.

(** The requests handed to the researcher process, in order. *)
Fixpoint interrupts (t : list Event) : list InvokeProcess :=
  match t with
  | [] => []
  | EvInterrupt p :: t' => p :: interrupts t'
  | _ :: t' => interrupts t'
  end.

(** The uploads of a trace, in order. *)
Fixpoint uploads (t : list Event) : list UploadCall :=
  match t with
  | [] => []
  | EvUpload c :: t' => c :: uploads t'
  | _ :: t' => uploads t'
  end.

(** How many events of a trace are of the kind [f]. *)
Fixpoint count (f : Event -> bool) (t : list Event) : nat :=
  match t with
  | [] => 0
  | ev :: t' => if f ev then S (count f t') else count f t'
  end.

(** The part of a trace before the first call of the language model. *)
Fixpoint before_first_llm (t : list Event) : list Event :=
  match t with
  | [] => []
  | ev :: t' => if is_llm_invoke ev then [] else ev :: before_first_llm t'
  end.

(** The last message of the request a sub-process is started with. *)
Definition request_of (p : InvokeProcess) : option Message :=
  last (arg_messages (input_arguments p)).

(** How many messages of a conversation are the researcher's
    acknowledgment. *)
Definition is_acknowledgment (m : Message) : bool :=
  match m with
  | AIMessage c => String.eqb c "Relevant information uploaded to bucket."
  | _ => false
  end.

Fixpoint acknowledgments (ms : list Message) : nat :=
  match ms with
  | [] => 0
  | m :: ms' => if is_acknowledgment m then S (acknowledgments ms') else acknowledgments ms'
  end.

(** The retriever's answer is the ingestion-in-progress signal. *)
Definition in_progress (a : Answer (list Document)) : bool :=
  match a with
  | Raises (IngestionInProgressException _) => true
  | _ => false
  end.

Definition is_ingestion_in_progress (e : Exn) : bool :=
  match e with
  | IngestionInProgressException _ => true
  | _ => false
  end.

(** ** Concrete runs *)

Module Scenario.
Import QuizGenerator.

Definition input : GraphInput :=
  {| in_general_category := "space";
     in_quiz_topic := "black holes";
     in_bucket_name := "b";
     in_index_name := "i";
     in_bucket_folder := None |}.

Definition item (q a : string) : QuizItem :=
  {| question := q; difficulty := 0.5%float; answer := a |}.

Definition quiz3 : Quiz :=
  {| quiz_items := [item "q1" "a1"; item "q2" "a2"; item "q3" "a3"] |}.

Definition documents : list Document := [ {| page_content := "Black holes bend light." |} ].

Definition acknowledged : AgentResponse :=
  {| resp_messages := [ResearcherUploader.acknowledgment] |}.

(** A retriever that signals ingestion in progress [n] times, then answers
    [a]. *)
Definition busy_then (n : nat) (a : Answer (list Document)) : nat -> Answer (list Document) :=
  fun k => if Nat.ltb k n then Raises (IngestionInProgressException "ingestion in progress") else a.

Definition round_with (content : LlmContent) : Round :=
  {| agent_response := acknowledged;
     retriever := busy_then 0 (Returns documents);
     llm_content := content |}.

Definition sufficient : LlmContent :=
  JsonObject {| raw_quiz := Some quiz3; raw_additional_info := Some "false" |}.

Definition gap (text : string) : LlmContent :=
  JsonObject {| raw_quiz := None; raw_additional_info := Some text |}.

Definition gap_with_quiz (text : string) : LlmContent :=
  JsonObject {| raw_quiz := Some quiz3; raw_additional_info := Some text |}.

Definition false_without_quiz : LlmContent :=
  JsonObject {| raw_quiz := None; raw_additional_info := Some "false" |}.

Definition malformed : LlmContent := NotJson "Here is your quiz: {".

(** The conversation the quiz workflow sends with its second request,
    after a first round that reported the gap "mass of Sagittarius A*". *)
Definition second_conversation : list Message :=
  [HumanMessage "Fetch data about space";
   ResearcherUploader.acknowledgment;
   HumanMessage "create a quiz about black holes";
   HumanMessage "mass of Sagittarius A*"].

Definition findings : string := "Sagittarius A* has about 4.3 million solar masses.".

Definition researcher_input : ResearcherUploader.GraphInput :=
  {| ResearcherUploader.in_messages := second_conversation;
     ResearcherUploader.in_bucket_name := "b";
     ResearcherUploader.in_bucket_folder := Present None |}.

Definition researched : ResearcherUploader.AgentResult :=
  {| ResearcherUploader.res_messages := second_conversation ++ [AIMessage findings] |}.

End Scenario.

(** ** Reading a run of the quiz workflow *)

Import QuizGenerator.

(** The retriever signals ingestion in progress [n <= 4] times and then
    answers [a]. *)
Definition settles (retriever : nat -> Answer (list Document)) (n : nat)
    (a : Answer (list Document)) : Prop :=
  n <= 4 /\ (forall k, k < n -> in_progress (retriever k) = true) /\ retriever n = a.

(** The text [invoke_researcher] asks the researcher for (lines 92-95). *)
Definition request_text (state : GraphState) : string :=
  if negb (eq_str (get_or_None (st_additional_info state)) "false")
  then format_opt (get_or_None (st_additional_info state))
  else "Fetch data about " +:+ st_general_category state.

(** The sub-process [invoke_researcher] starts (lines 96-104). *)
Definition process_for (state : GraphState) : InvokeProcess :=
  {| name := "researcher-and-uploader-agent";
     input_arguments :=
       {| arg_messages := st_messages state ++ [HumanMessage (request_text state)];
          arg_bucket_name := st_bucket_name state;
          arg_bucket_folder := get_or_None (st_bucket_folder state) |} |}.

(** The state after the request was appended (line 93 or 95). *)
Definition after_request (state : GraphState) : GraphState :=
  set_messages (st_messages state ++ [HumanMessage (request_text state)]) state.

(** The state after the Command of [invoke_researcher] was merged, [m]
    being the last message of the researcher's answer. *)
Definition after_research (state : GraphState) (m : Message) : GraphState :=
  apply_update
    {| upd_messages :=
         Some [m; HumanMessage ("create a quiz about " +:+ st_quiz_topic state)];
       upd_quiz := None;
       upd_additional_info := None |}
    (after_request state).

(** The Command of [create_quiz] for an answer of the model (lines 141-155). *)
Definition command_for (content : LlmContent) : Command :=
  match output_parser_parse content with
  | Ok llm_response => {| update := llm_response_update llm_response; goto := None |}
  | Raise _ => {| update := no_update; goto := Some END |}
  end.

(** What happens after [create_quiz] on the state [state], already
    updated: the conditional edge, then the node it picks. *)
Definition after_create_quiz (rest : list Round) (state : GraphState) : Eff Outcome :=
  (next <- lift (check_quiz_creation state) ;;
   match next with
   | To_invoke_researcher => from_invoke_researcher rest state
   | To_return_quiz =>
       output <- lift (return_quiz state) ;;
       ret (Finished output)
   end)%eff.

(** The gap text an answer of the model carries, as the next request
    renders it. *)
Definition gap_of (content : LlmContent) : string :=
  match output_parser_parse content with
  | Ok llm_response => format_opt (additional_info llm_response)
  | Raise _ => ""
  end.

(** A round in which the researcher answers, retrieval yields a context
    within the retries, and the model's answer parses. *)
Definition parsed_round (round : Round) (r : QuizOrInsufficientInfo) : Prop :=
  resp_messages (agent_response round) <> [] /\
  (exists n d ds, settles (retriever round) n (Returns (d :: ds))) /\
  output_parser_parse (llm_content round) = Ok r.

(** A round whose parsed answer reports a gap: any marker but "false". *)
Definition gap_round (round : Round) : Prop :=
  exists r, parsed_round round r /\ additional_info r <> Some "false".

(** ** Reading an answer, and the calls of a run *)

(** The bounds of [difficulty] (line 24): [ge=0.0, le=1.0]. *)
Definition in_unit_interval (d : float) : bool :=
  (PrimFloat.leb 0 d && PrimFloat.leb d 1)%bool.

Definition items_valid (items : list QuizItem) : bool :=
  forallb (fun item => in_unit_interval (difficulty item)) items.

(** The quiz of an answer, if there is one, has all its items in bounds. *)
Definition quiz_valid (v : option Quiz) : bool :=
  match v with
  | None => true
  | Some q => items_valid (quiz_items q)
  end.

(** A call is one the quiz workflow makes on the setup of [state]: the
    researcher process with the state's bucket and folder, the state's
    index and bucket, 10 results for the state's topic, waits of 5, the
    model on the state's topic with a context that is not empty.  The search
    agent and the upload are never called by this workflow itself. *)
Definition event_fits (state : GraphState) (ev : Event) : Prop :=
  match ev with
  | EvInterrupt p =>
      name p = "researcher-and-uploader-agent" /\
      arg_bucket_name (input_arguments p) = st_bucket_name state /\
      arg_bucket_folder (input_arguments p) = get_or_None (st_bucket_folder state)
  | EvGetOrCreateIndex index bucket =>
      index = st_index_name state /\ bucket = st_bucket_name state
  | EvIngestData index => index = st_index_name state
  | EvRetrieve index number_of_results query =>
      index = st_index_name state /\ number_of_results = 10 /\
      query = st_quiz_topic state
  | EvLogInfo _ => True
  | EvSleep seconds => seconds = 5
  | EvLlmInvoke topic context => topic = st_quiz_topic state /\ context <> []
  | EvAgentInvoke _ | EvUpload _ => False
  end.

(** The keys of the state that no node writes. *)
Definition same_setup (state state' : GraphState) : Prop :=
  st_general_category state' = st_general_category state /\
  st_quiz_topic state' = st_quiz_topic state /\
  st_bucket_name state' = st_bucket_name state /\
  st_bucket_folder state' = st_bucket_folder state /\
  st_index_name state' = st_index_name state.


(** The quiz and the marker of [state] are as [create_quiz] stores them for
    the parsed answer of one of the rounds [seen], or the quiz was never
    written. *)
Definition stored_from (seen : list Round) (state : GraphState) : Prop :=
  st_quiz state = Absent \/
  exists round r,
    In round seen /\
    output_parser_parse (llm_content round) = Ok r /\
    st_additional_info state = Present (additional_info r) /\
    st_quiz state =
      Present (if eq_str (additional_info r) "false" then quiz r else None).

(** The lines logged in a trace, in order. *)
Fixpoint logged (t : list Event) : list string :=
  match t with
  | [] => []
  | EvLogInfo line :: t' => line :: logged t'
  | _ :: t' => logged t'
  end.

(** The message of the exception a call of the retriever raised. *)
Definition message_of (a : Answer (list Document)) : string :=
  match a with
  | Raises (IngestionInProgressException message) => message
  | _ => ""
  end.

(** ** Laws of the effect monad and of the trace readers *)

Lemma bind_emit {B} (ev : Event) (k : unit -> Eff B) :
  bind (emit ev) k = (ev :: trace (k tt), result (k tt)).
Proof. unfold bind, emit, trace, result. destruct (k tt); reflexivity. Qed.

Lemma bind_ret {A B} (a : A) (k : A -> Eff B) : bind (ret a) k = k a.
Proof. unfold bind, ret. destruct (k a); reflexivity. Qed.

Lemma bind_lift_ok {A B} (a : A) (k : A -> Eff B) : bind (lift (Ok a)) k = k a.
Proof. apply bind_ret. Qed.

Lemma bind_ok {A B} (m : Eff A) (k : A -> Eff B) (a : A) :
  result m = Ok a ->
  bind m k = (trace m ++ trace (k a), result (k a)).
Proof.
  destruct m as [t r]; simpl; intros ->.
  unfold trace, result. destruct (k a); reflexivity.
Qed.

Lemma bind_raise {A B} (m : Eff A) (k : A -> Eff B) (e : Exn) :
  result m = Raise e ->
  bind m k = (trace m, Raise e).
Proof. destruct m as [t r]; simpl; intros ->. reflexivity. Qed.

Lemma eff_eta {A} (m : Eff A) : m = (trace m, result m).
Proof. destruct m; reflexivity. Qed.

Lemma sleeps_app (t u : list Event) : sleeps (t ++ u) = sleeps t ++ sleeps u.
Proof.
  induction t as [|ev t IH]; simpl; [reflexivity|].
  destruct ev; simpl; rewrite IH; reflexivity.
Qed.

Lemma interrupts_app (t u : list Event) : interrupts (t ++ u) = interrupts t ++ interrupts u.
Proof.
  induction t as [|ev t IH]; simpl; [reflexivity|].
  destruct ev; simpl; rewrite IH; reflexivity.
Qed.

Lemma count_app (f : Event -> bool) (t u : list Event) :
  count f (t ++ u) = count f t + count f u.
Proof.
  induction t as [|ev t IH]; simpl; [reflexivity|].
  destruct (f ev); simpl; rewrite IH; reflexivity.
Qed.

Lemma before_first_llm_app (t u : list Event) :
  count is_llm_invoke t = 0 ->
  before_first_llm (t ++ u) = t ++ before_first_llm u.
Proof.
  induction t as [|ev t IH]; simpl; [reflexivity|].
  destruct (is_llm_invoke ev); [discriminate|].
  intros H. rewrite IH by exact H. reflexivity.
Qed.

Lemma before_first_llm_none (t : list Event) :
  count is_llm_invoke t = 0 -> before_first_llm t = t.
Proof.
  intros H. rewrite <- (app_nil_r t) at 1.
  rewrite before_first_llm_app by exact H. simpl. apply app_nil_r.
Qed.

(** ** The retrieval loop of [create_quiz] *)

Section RetrievalLoop.

Variable state : GraphState.
Variable retriever : nat -> Answer (list Document).

(** While the retriever signals ingestion in progress, each pass of the
    loop makes one call and one wait of 5 and uses up one retry. *)
Lemma retrieval_loop_busy (n : nat) :
  forall attempt retries,
    (forall k, k < n -> in_progress (retriever (attempt + k)) = true) ->
    exists t,
      sleeps t = repeat 5 n /\
      count is_retrieve t = n /\
      interrupts t = [] /\
      count is_llm_invoke t = 0 /\
      retrieval_loop state retriever attempt (n + retries) =
        (t ++ trace (retrieval_loop state retriever (attempt + n) retries),
         result (retrieval_loop state retriever (attempt + n) retries)).
Proof.
  induction n as [|n IH]; intros attempt retries Hbusy.
  - exists []. replace (attempt + 0) with attempt by lia.
    repeat split. simpl. apply eff_eta.
  - assert (H0 : in_progress (retriever attempt) = true).
    { replace attempt with (attempt + 0) by lia. apply Hbusy. lia. }
    destruct (IH (S attempt) retries) as (t & Hs & Hc & Hi & Hl & Heq).
    { intros k Hk. replace (S attempt + k) with (attempt + S k) by lia.
      apply Hbusy. lia. }
    replace (attempt + S n) with (S attempt + n) by lia.
    destruct (retriever attempt) as [docs|e] eqn:Hr; [discriminate|].
    destruct e; try discriminate.
    exists (EvRetrieve (st_index_name state) 10 (st_quiz_topic state)
              :: EvLogInfo message
              :: EvLogInfo (format_nat (n + retries) +:+ " retries left")
              :: EvSleep 5 :: t).
    simpl sleeps. simpl count. simpl interrupts.
    rewrite Hs, Hc, Hi, Hl. repeat split.
    change (S n + retries) with (S (n + retries)).
    cbn [retrieval_loop]. rewrite bind_emit, Hr.
    rewrite !bind_emit, Heq. reflexivity.
Qed.

(** With no retry left the loop is over, [context_data] still [None]. *)
Lemma retrieval_loop_left (attempt : nat) :
  retrieval_loop state retriever attempt 0 = ret None.
Proof. reflexivity. Qed.

(** A call that returns ends the loop with what it returned. *)
Lemma retrieval_loop_returns (attempt retries : nat) (documents : list Document) :
  retriever attempt = Returns documents ->
  retrieval_loop state retriever attempt (S retries) =
    ([EvRetrieve (st_index_name state) 10 (st_quiz_topic state)], Ok (Some documents)).
Proof. intros Hr. cbn [retrieval_loop]. rewrite bind_emit, Hr. reflexivity. Qed.

(** A call that raises anything but the signal ends the loop with that
    exception: no log line, no wait, no further call. *)
Lemma retrieval_loop_raises (attempt retries : nat) (e : Exn) :
  retriever attempt = Raises e ->
  is_ingestion_in_progress e = false ->
  retrieval_loop state retriever attempt (S retries) =
    ([EvRetrieve (st_index_name state) 10 (st_quiz_topic state)], Raise e).
Proof.
  intros Hr He. cbn [retrieval_loop]. rewrite bind_emit, Hr.
  destruct e; try discriminate; reflexivity.
Qed.

(** [n <= 4] signals and then a context that is not empty. *)
Lemma retrieve_context_returns (n : nat) (d : Document) (ds : list Document) :
  n <= 4 ->
  (forall k, k < n -> in_progress (retriever k) = true) ->
  retriever n = Returns (d :: ds) ->
  exists t,
    retrieve_context state retriever = (t, Ok (d :: ds)) /\
    sleeps t = repeat 5 n /\
    count is_retrieve t = S n /\
    interrupts t = [] /\
    count is_llm_invoke t = 0.
Proof.
  intros Hn Hbusy Hret.
  destruct (retrieval_loop_busy n 0 (5 - n) Hbusy) as (t & Hs & Hc & Hi & Hl & Heq).
  replace (n + (5 - n)) with 5 in Heq by lia. simpl (0 + n) in Heq.
  destruct (5 - n) as [|r] eqn:Hr; [lia|].
  rewrite (retrieval_loop_returns n r _ Hret) in Heq.
  unfold trace, result in Heq. cbn [fst snd] in Heq.
  exists (t ++ [EvRetrieve (st_index_name state) 10 (st_quiz_topic state)]).
  unfold retrieve_context. rewrite Heq.
  rewrite sleeps_app, interrupts_app, !count_app, Hs, Hc, Hi, Hl. simpl.
  rewrite !app_nil_r. repeat split; lia.
Qed.

(** [n <= 4] signals and then a call that returns no document at all. *)
Lemma retrieve_context_empty (n : nat) :
  n <= 4 ->
  (forall k, k < n -> in_progress (retriever k) = true) ->
  retriever n = Returns [] ->
  exists t,
    retrieve_context state retriever = (t, Raise (Exception "Ingestion is taking too long!")) /\
    sleeps t = repeat 5 n /\
    count is_retrieve t = S n.
Proof.
  intros Hn Hbusy Hret.
  destruct (retrieval_loop_busy n 0 (5 - n) Hbusy) as (t & Hs & Hc & Hi & Hl & Heq).
  replace (n + (5 - n)) with 5 in Heq by lia. simpl (0 + n) in Heq.
  destruct (5 - n) as [|r] eqn:Hr; [lia|].
  rewrite (retrieval_loop_returns n r _ Hret) in Heq.
  unfold trace, result in Heq. cbn [fst snd] in Heq.
  exists (t ++ [EvRetrieve (st_index_name state) 10 (st_quiz_topic state)]).
  unfold retrieve_context. rewrite Heq.
  rewrite sleeps_app, !count_app, Hs, Hc. simpl.
  rewrite !app_nil_r. repeat split; lia.
Qed.

(** Five signals in a row. *)
Lemma retrieve_context_exhausted :
  (forall k, k < 5 -> in_progress (retriever k) = true) ->
  exists t,
    retrieve_context state retriever = (t, Raise (Exception "Ingestion is taking too long!")) /\
    sleeps t = repeat 5 5 /\
    count is_retrieve t = 5.
Proof.
  intros Hbusy.
  destruct (retrieval_loop_busy 5 0 0 Hbusy) as (t & Hs & Hc & Hi & Hl & Heq).
  change (5 + 0) with 5 in Heq. change (0 + 5) with 5 in Heq.
  rewrite retrieval_loop_left in Heq.
  unfold trace, result, ret in Heq. cbn [fst snd] in Heq.
  rewrite app_nil_r in Heq.
  exists t. unfold retrieve_context. rewrite Heq.
  unfold bind, raise. rewrite app_nil_r. repeat split; assumption.
Qed.

(** [n <= 4] signals and then another exception: the failing call is the
    last thing that happens. *)
Lemma retrieve_context_raises (n : nat) (e : Exn) :
  n <= 4 ->
  (forall k, k < n -> in_progress (retriever k) = true) ->
  retriever n = Raises e ->
  is_ingestion_in_progress e = false ->
  exists t,
    retrieve_context state retriever =
      (t ++ [EvRetrieve (st_index_name state) 10 (st_quiz_topic state)], Raise e) /\
    sleeps t = repeat 5 n /\
    count is_retrieve t = n /\
    count is_llm_invoke t = 0.
Proof.
  intros Hn Hbusy Hret He.
  destruct (retrieval_loop_busy n 0 (5 - n) Hbusy) as (t & Hs & Hc & Hi & Hl & Heq).
  replace (n + (5 - n)) with 5 in Heq by lia. simpl (0 + n) in Heq.
  destruct (5 - n) as [|r] eqn:Hr; [lia|].
  rewrite (retrieval_loop_raises n r _ Hret He) in Heq.
  unfold trace, result in Heq. cbn [fst snd] in Heq.
  exists t. unfold retrieve_context. rewrite Heq.
  repeat split; assumption.
Qed.

End RetrievalLoop.

(** ** Node by node *)

Section Nodes.

Lemma eq_str_true (x : option string) (lit : string) :
  eq_str x lit = true <-> x = Some lit.
Proof.
  destruct x as [s|]; simpl.
  - rewrite String.eqb_eq. split; [intros ->; reflexivity | intros [= ->]; reflexivity].
  - split; discriminate.
Qed.

Lemma eq_str_false (x : option string) (lit : string) :
  eq_str x lit = false <-> x <> Some lit.
Proof.
  rewrite <- eq_str_true. destruct (eq_str x lit); split; congruence.
Qed.

(** [create_quiz] once the retrieval step has a context: one call of the
    model, and a Command by what the parser makes of the answer. *)
Lemma create_quiz_with_context (state : GraphState) (retriever : nat -> Answer (list Document))
    (content : LlmContent) (t : list Event) (ctx : list Document) :
  retrieve_context state retriever = (t, Ok ctx) ->
  create_quiz state retriever content =
    (EvGetOrCreateIndex (st_index_name state) (st_bucket_name state)
       :: EvIngestData (st_index_name state)
       :: t ++ [EvLlmInvoke (st_quiz_topic state) ctx],
     Ok match output_parser_parse content with
        | Ok llm_response => {| update := llm_response_update llm_response; goto := None |}
        | Raise _ => {| update := no_update; goto := Some END |}
        end).
Proof.
  intros Hctx. unfold create_quiz. rewrite !bind_emit.
  rewrite (bind_ok _ _ ctx) by (rewrite Hctx; reflexivity).
  rewrite Hctx. unfold trace, result. cbn [fst snd].
  rewrite bind_emit. unfold trace, result.
  destruct (output_parser_parse content); reflexivity.
Qed.

(** [create_quiz] when the retrieval step raises: the exception leaves the
    node, and the model is not called. *)
Lemma create_quiz_without_context (state : GraphState)
    (retriever : nat -> Answer (list Document)) (content : LlmContent)
    (t : list Event) (e : Exn) :
  retrieve_context state retriever = (t, Raise e) ->
  create_quiz state retriever content =
    (EvGetOrCreateIndex (st_index_name state) (st_bucket_name state)
       :: EvIngestData (st_index_name state) :: t,
     Raise e).
Proof.
  intros Hctx. unfold create_quiz. rewrite !bind_emit.
  rewrite (bind_raise _ _ e) by (rewrite Hctx; reflexivity).
  rewrite Hctx. reflexivity.
Qed.

(** No Command of [create_quiz] adds a branch to the node's edges. *)
Lemma create_quiz_adds_no_branch (state : GraphState)
    (retriever : nat -> Answer (list Document)) (content : LlmContent) (cmd : Command) :
  result (create_quiz state retriever content) = Ok cmd ->
  goto_branches cmd = [].
Proof.
  unfold create_quiz. rewrite !bind_emit. unfold result at 1. cbn [snd].
  destruct (retrieve_context state retriever) as [t [ctx|e]] eqn:Hctx.
  - rewrite (bind_ok _ _ ctx) by reflexivity. unfold result at 1. cbn [snd].
    rewrite bind_emit. unfold result. cbn [snd].
    destruct (output_parser_parse content); intros [= <-]; reflexivity.
  - rewrite (bind_raise _ _ e) by reflexivity. discriminate.
Qed.

(** Validation hands a quiz back as it came. *)
Lemma validate_items_same (items items' : list QuizItem) :
  validate_items items = Ok items' -> items' = items.
Proof.
  revert items'. induction items as [|item rest IH]; simpl; intros items'.
  - intros [= <-]. reflexivity.
  - unfold QuizItem_validate.
    destruct (_ && _)%bool; [|discriminate].
    destruct (validate_items rest) as [rest'|e]; [|discriminate].
    intros [= <-]. rewrite (IH rest' eq_refl). reflexivity.
Qed.

Lemma Quiz_validate_same (q q' : Quiz) : Quiz_validate q = Ok q' -> q' = q.
Proof.
  unfold Quiz_validate. destruct (validate_items (quiz_items q)) as [items|e] eqn:H; [|discriminate].
  intros [= <-]. apply validate_items_same in H. subst. destruct q; reflexivity.
Qed.

(** The validator of [quiz] sees none of the other fields: it accepts what
    it is given. *)
Lemma check_quiz_before_additional_info (v : option Quiz) :
  check_quiz v ∅ = Ok v.
Proof. reflexivity. Qed.

(** Handed the marker, the same validator would turn away a missing quiz. *)
Lemma check_quiz_after_additional_info :
  check_quiz None (<["additional_info" := StrValue (Some "false")]> ∅) =
    Raise (ValueError "Quiz should be None when additional_info is not 'false'").
Proof. vm_compute. reflexivity. Qed.

(** A parsed result holds the fields of the answer, unchanged. *)
Lemma output_parser_parse_fields (content : LlmContent) (r : QuizOrInsufficientInfo) :
  output_parser_parse content = Ok r ->
  exists fields,
    content = JsonObject fields /\
    quiz r = raw_quiz fields /\
    additional_info r = raw_additional_info fields.
Proof.
  destruct content as [text|fields]; simpl; [discriminate|].
  unfold QuizOrInsufficientInfo_validate, validate_optional_quiz.
  destruct (raw_quiz fields) as [q|] eqn:Hq.
  - destruct (Quiz_validate q) as [q'|e] eqn:Hv; [|discriminate].
    rewrite check_quiz_before_additional_info. intros [= <-].
    apply Quiz_validate_same in Hv. subst. exists fields. rewrite Hq. auto.
  - rewrite check_quiz_before_additional_info. intros [= <-].
    exists fields. rewrite Hq. auto.
Qed.

(** The retrieval step never starts a sub-process nor calls the model,
    whatever the retriever answers. *)
Lemma retrieval_loop_quiet (state : GraphState) (retriever : nat -> Answer (list Document))
    (retries : nat) :
  forall attempt,
    interrupts (trace (retrieval_loop state retriever attempt retries)) = [] /\
    count is_llm_invoke (trace (retrieval_loop state retriever attempt retries)) = 0.
Proof.
  induction retries as [|retries IH]; intros attempt; [split; reflexivity|].
  cbn [retrieval_loop]. rewrite bind_emit.
  destruct (retriever attempt) as [docs|e]; [split; reflexivity|].
  destruct e; try (split; reflexivity).
  rewrite !bind_emit. unfold trace at 1 3. cbn [fst].
  cbn [trace fst interrupts count is_llm_invoke]. apply IH.
Qed.

Lemma retrieve_context_quiet (state : GraphState) (retriever : nat -> Answer (list Document)) :
  interrupts (trace (retrieve_context state retriever)) = [] /\
  count is_llm_invoke (trace (retrieve_context state retriever)) = 0.
Proof.
  unfold retrieve_context.
  destruct (retrieval_loop_quiet state retriever 5 0) as [Hi Hl].
  destruct (retrieval_loop state retriever 0 5) as [t [[[|d ds]|]|e]];
    unfold trace in *; cbn [fst bind raise ret] in *;
    rewrite ?app_nil_r; split; assumption.
Qed.

(** [invoke_researcher] on a state that holds a marker. *)
Lemma invoke_researcher_request_present (state : GraphState) (a : option string) :
  st_additional_info state = Present a ->
  invoke_researcher_request state = Ok (after_request state, process_for state).
Proof.
  intros Ha. unfold invoke_researcher_request, after_request, process_for, request_text.
  rewrite Ha. cbn [getitem get_or_None].
  destruct (negb (eq_str a "false")); reflexivity.
Qed.

Lemma invoke_researcher_answered (state : GraphState) (a : option string)
    (response : AgentResponse) (m : Message) :
  st_additional_info state = Present a ->
  last (resp_messages response) = Some m ->
  invoke_researcher state (Some response) =
    ([EvInterrupt (process_for state)],
     Ok (after_request state,
         Some {| update :=
                   {| upd_messages :=
                        Some [m; HumanMessage ("create a quiz about " +:+ st_quiz_topic state)];
                      upd_quiz := None;
                      upd_additional_info := None |};
                 goto := None |})).
Proof.
  intros Ha Hm. unfold invoke_researcher.
  rewrite (invoke_researcher_request_present _ _ Ha), bind_lift_ok.
  cbn [fst snd]. rewrite bind_emit.
  unfold invoke_researcher_resume, last_item. rewrite Hm.
  rewrite bind_lift_ok. reflexivity.
Qed.

Lemma invoke_researcher_unanswered (state : GraphState) (a : option string) :
  st_additional_info state = Present a ->
  invoke_researcher state None =
    ([EvInterrupt (process_for state)], Ok (after_request state, None)).
Proof.
  intros Ha. unfold invoke_researcher.
  rewrite (invoke_researcher_request_present _ _ Ha), bind_lift_ok.
  cbn [fst snd]. rewrite bind_emit. reflexivity.
Qed.

(** With nobody answering, the run waits at the request. *)
Lemma from_invoke_researcher_waits (state : GraphState) (a : option string) :
  st_additional_info state = Present a ->
  from_invoke_researcher [] state =
    ([EvInterrupt (process_for state)], Ok (Suspended (after_request state))).
Proof.
  intros Ha. cbn [from_invoke_researcher].
  rewrite (invoke_researcher_unanswered _ _ Ha). reflexivity.
Qed.

(** One round in which the researcher answers and retrieval yields a
    context: request, retrieval, one call of the model, and then the
    conditional edge on the state as updated. *)
Lemma from_invoke_researcher_round (state : GraphState) (a : option string)
    (round : Round) (m : Message) (n : nat) (d : Document) (ds : list Document) :
  st_additional_info state = Present a ->
  last (resp_messages (agent_response round)) = Some m ->
  settles (retriever round) n (Returns (d :: ds)) ->
  exists t,
    sleeps t = repeat 5 n /\
    interrupts t = [] /\
    count is_llm_invoke t = 0 /\
    forall rest,
      let state3 :=
        apply_update (update (command_for (llm_content round))) (after_research state m) in
      from_invoke_researcher (round :: rest) state =
        (EvInterrupt (process_for state)
           :: EvGetOrCreateIndex (st_index_name state) (st_bucket_name state)
           :: EvIngestData (st_index_name state)
           :: t ++ EvLlmInvoke (st_quiz_topic state) (d :: ds)
           :: trace (after_create_quiz rest state3),
         result (after_create_quiz rest state3)).
Proof.
  intros Ha Hm (Hn & Hbusy & Hret).
  destruct (retrieve_context_returns (after_research state m) (retriever round) n d ds
              Hn Hbusy Hret) as (t & Hctx & Hs & _ & Hi & Hl).
  exists t. repeat split; try assumption.
  intros rest. cbn zeta. cbn [from_invoke_researcher].
  rewrite (invoke_researcher_answered _ _ _ _ Ha Hm).
  unfold bind at 1. cbn [snd fst update].
  fold (after_research state m).
  rewrite (create_quiz_with_context _ _ (llm_content round) _ _ Hctx).
  fold (command_for (llm_content round)).
  unfold bind at 1. fold (after_create_quiz rest
    (apply_update (update (command_for (llm_content round))) (after_research state m))).
  destruct (after_create_quiz rest _) as [t' r'].
  unfold trace, result. cbn [fst snd app]. rewrite <- app_assoc. reflexivity.
Qed.

(** One round in which [create_quiz] raises: the run raises the same. *)
Lemma from_invoke_researcher_raises (state : GraphState) (a : option string)
    (round : Round) (rest : list Round) (m : Message) (t : list Event) (e : Exn) :
  st_additional_info state = Present a ->
  last (resp_messages (agent_response round)) = Some m ->
  create_quiz (after_research state m) (retriever round) (llm_content round) = (t, Raise e) ->
  from_invoke_researcher (round :: rest) state =
    (EvInterrupt (process_for state) :: t, Raise e).
Proof.
  intros Ha Hm Hcq. cbn [from_invoke_researcher].
  rewrite (invoke_researcher_answered _ _ _ _ Ha Hm).
  unfold bind at 1. cbn [snd fst update].
  fold (after_research state m). rewrite Hcq. reflexivity.
Qed.

End Nodes.

(** ** The sufficiency decision *)

(** C1.  A parsed answer whose marker is "false" and that holds a quiz:
    [create_quiz] stores that quiz, the conditional edge picks
    [return_quiz], and [return_quiz] puts the very same quiz (same items,
    same order) into the output of the workflow. *)
Theorem sufficient_answer_returns_its_quiz
    (state : GraphState) (retriever : nat -> Answer (list Document))
    (content : LlmContent) (t : list Event) (ctx : list Document)
    (r : QuizOrInsufficientInfo) (q : Quiz) :
  retrieve_context state retriever = (t, Ok ctx) ->
  output_parser_parse content = Ok r ->
  additional_info r = Some "false" ->
  quiz r = Some q ->
  exists cmd,
    result (create_quiz state retriever content) = Ok cmd /\
    goto_branches cmd = [] /\
    st_quiz (apply_update (update cmd) state) = Present (Some q) /\
    check_quiz_creation (apply_update (update cmd) state) = Ok To_return_quiz /\
    return_quiz (apply_update (update cmd) state) = Ok {| out_quiz := q |}.
Proof.
  intros Hctx Hparse Hmark Hquiz.
  exists {| update := llm_response_update r; goto := None |}.
  rewrite (create_quiz_with_context _ _ content _ _ Hctx), Hparse.
  unfold llm_response_update, check_quiz_creation, return_quiz.
  rewrite Hmark, Hquiz. repeat split.
Qed.

Lemma sufficient_answer_returns_its_quiz_witness :
  exists cmd,
    result (create_quiz (prepare_input Scenario.input)
              (Scenario.busy_then 2 (Returns Scenario.documents)) Scenario.sufficient) = Ok cmd /\
    goto_branches cmd = [] /\
    st_quiz (apply_update (update cmd) (prepare_input Scenario.input)) =
      Present (Some Scenario.quiz3) /\
    check_quiz_creation (apply_update (update cmd) (prepare_input Scenario.input)) =
      Ok To_return_quiz /\
    return_quiz (apply_update (update cmd) (prepare_input Scenario.input)) =
      Ok {| out_quiz := Scenario.quiz3 |}.
Proof.
  eapply (sufficient_answer_returns_its_quiz
            (prepare_input Scenario.input)
            (Scenario.busy_then 2 (Returns Scenario.documents))
            Scenario.sufficient _ Scenario.documents
            {| quiz := Some Scenario.quiz3; additional_info := Some "false" |}
            Scenario.quiz3).
  - vm_compute. reflexivity.
  - vm_compute. reflexivity.
  - reflexivity.
  - reflexivity.
Defined.

(** C2.  A parsed answer whose marker is anything but "false": the quiz it
    may hold is dropped (the state holds [None]), the conditional edge picks
    [invoke_researcher], and that node appends the marker, as rendered by the
    f-string, to the conversation as a human message and sends this
    conversation to the researcher.  A marker that is a text is rendered as
    itself. *)
Theorem gap_answer_goes_back_to_research
    (state : GraphState) (retriever : nat -> Answer (list Document))
    (content : LlmContent) (t : list Event) (ctx : list Document)
    (r : QuizOrInsufficientInfo) :
  retrieve_context state retriever = (t, Ok ctx) ->
  output_parser_parse content = Ok r ->
  additional_info r <> Some "false" ->
  exists cmd state' p,
    result (create_quiz state retriever content) = Ok cmd /\
    goto_branches cmd = [] /\
    st_quiz (apply_update (update cmd) state) = Present None /\
    check_quiz_creation (apply_update (update cmd) state) = Ok To_invoke_researcher /\
    invoke_researcher_request (apply_update (update cmd) state) = Ok (state', p) /\
    st_messages state' =
      st_messages state ++ [HumanMessage (format_opt (additional_info r))] /\
    arg_messages (input_arguments p) = st_messages state' /\
    (forall text, additional_info r = Some text ->
       last (st_messages state') = Some (HumanMessage text)).
Proof.
  intros Hctx Hparse Hmark.
  apply eq_str_false in Hmark.
  set (cmd := {| update := llm_response_update r; goto := None |}).
  assert (Ha : st_additional_info (apply_update (update cmd) state) =
               Present (additional_info r)) by reflexivity.
  exists cmd, (after_request (apply_update (update cmd) state)),
    (process_for (apply_update (update cmd) state)).
  rewrite (create_quiz_with_context _ _ content _ _ Hctx), Hparse.
  rewrite (invoke_researcher_request_present _ _ Ha).
  assert (Htext : request_text (apply_update (update cmd) state) =
                  format_opt (additional_info r)).
  { unfold request_text. rewrite Ha. cbn [get_or_None]. rewrite Hmark. reflexivity. }
  unfold after_request, process_for. rewrite Htext.
  unfold check_quiz_creation. rewrite Ha. cbn [getitem]. rewrite Hmark.
  cbn [st_quiz apply_update update cmd llm_response_update upd_quiz]. rewrite Hmark.
  cbn [st_messages set_messages apply_update update cmd llm_response_update
       upd_messages arg_messages input_arguments].
  repeat split.
  intros text Htxt. rewrite Htxt. rewrite last_snoc. reflexivity.
Qed.

Lemma gap_answer_goes_back_to_research_witness :
  exists cmd state' p,
    result (create_quiz (prepare_input Scenario.input)
              (Scenario.busy_then 0 (Returns Scenario.documents))
              (Scenario.gap_with_quiz "mass of Sagittarius A*")) = Ok cmd /\
    goto_branches cmd = [] /\
    st_quiz (apply_update (update cmd) (prepare_input Scenario.input)) = Present None /\
    check_quiz_creation (apply_update (update cmd) (prepare_input Scenario.input)) =
      Ok To_invoke_researcher /\
    invoke_researcher_request (apply_update (update cmd) (prepare_input Scenario.input)) =
      Ok (state', p) /\
    st_messages state' =
      st_messages (prepare_input Scenario.input)
        ++ [HumanMessage (format_opt (Some "mass of Sagittarius A*"))] /\
    arg_messages (input_arguments p) = st_messages state' /\
    (forall text, Some "mass of Sagittarius A*" = Some text ->
       last (st_messages state') = Some (HumanMessage text)).
Proof.
  eapply (gap_answer_goes_back_to_research
            (prepare_input Scenario.input)
            (Scenario.busy_then 0 (Returns Scenario.documents))
            (Scenario.gap_with_quiz "mass of Sagittarius A*") _ Scenario.documents
            {| quiz := Some Scenario.quiz3;
               additional_info := Some "mass of Sagittarius A*" |}).
  - vm_compute. reflexivity.
  - vm_compute. reflexivity.
  - discriminate.
Defined.

(** ** The retrieval step *)

(** C3.  The retriever answers its first call with an empty list of
    documents: no signal, no wait, and still the step raises "Ingestion is
    taking too long!" instead of handing the context on. *)
Theorem retrieval_without_documents_is_reported_as_lag :
  Scenario.busy_then 0 (Returns []) 0 = Returns [] /\
  retrieve_context (prepare_input Scenario.input) (Scenario.busy_then 0 (Returns [])) =
    ([EvRetrieve "i" 10 "black holes"], Raise (Exception "Ingestion is taking too long!")).
Proof. split; reflexivity. Qed.

(** The retry loop on contexts that are not empty: after [n <= 4] signals
    the context is handed on after exactly [n] waits of 5 and [n + 1]
    calls; after 5 signals in a row the step raises "Ingestion is taking too
    long!" after 5 calls and 5 waits of 5, whatever a sixth call would
    answer. *)
Theorem retrieval_retries_then_gives_up
    (state : GraphState) (retriever : nat -> Answer (list Document)) :
  (forall n d ds,
     settles retriever n (Returns (d :: ds)) ->
     result (retrieve_context state retriever) = Ok (d :: ds) /\
     sleeps (trace (retrieve_context state retriever)) = repeat 5 n /\
     count is_retrieve (trace (retrieve_context state retriever)) = S n) /\
  ((forall k, k < 5 -> in_progress (retriever k) = true) ->
     result (retrieve_context state retriever) =
       Raise (Exception "Ingestion is taking too long!") /\
     sleeps (trace (retrieve_context state retriever)) = [5; 5; 5; 5; 5] /\
     count is_retrieve (trace (retrieve_context state retriever)) = 5).
Proof.
  split.
  - intros n d ds (Hn & Hbusy & Hret).
    destruct (retrieve_context_returns state retriever n d ds Hn Hbusy Hret)
      as (t & -> & Hs & Hc & _). repeat split; assumption.
  - intros Hbusy.
    destruct (retrieve_context_exhausted state retriever Hbusy) as (t & -> & Hs & Hc).
    repeat split; assumption.
Qed.

Lemma retrieval_retries_then_gives_up_witness :
  (result (retrieve_context (prepare_input Scenario.input)
             (Scenario.busy_then 3 (Returns Scenario.documents))) = Ok Scenario.documents /\
   sleeps (trace (retrieve_context (prepare_input Scenario.input)
                    (Scenario.busy_then 3 (Returns Scenario.documents)))) = repeat 5 3 /\
   count is_retrieve (trace (retrieve_context (prepare_input Scenario.input)
                               (Scenario.busy_then 3 (Returns Scenario.documents)))) = 4) /\
  (result (retrieve_context (prepare_input Scenario.input)
             (Scenario.busy_then 7 (Returns Scenario.documents))) =
     Raise (Exception "Ingestion is taking too long!") /\
   sleeps (trace (retrieve_context (prepare_input Scenario.input)
                    (Scenario.busy_then 7 (Returns Scenario.documents)))) = [5; 5; 5; 5; 5] /\
   count is_retrieve (trace (retrieve_context (prepare_input Scenario.input)
                               (Scenario.busy_then 7 (Returns Scenario.documents)))) = 5).
Proof.
  split.
  - apply (proj1 (retrieval_retries_then_gives_up (prepare_input Scenario.input)
                    (Scenario.busy_then 3 (Returns Scenario.documents)))
             3 {| page_content := "Black holes bend light." |} []).
    split; [lia|]. split; [|reflexivity].
    intros k Hk. unfold Scenario.busy_then.
    destruct (Nat.ltb_spec k 3); [reflexivity | lia].
  - apply (proj2 (retrieval_retries_then_gives_up (prepare_input Scenario.input)
                    (Scenario.busy_then 7 (Returns Scenario.documents)))).
    intros k Hk. unfold Scenario.busy_then.
    destruct (Nat.ltb_spec k 7); [reflexivity | lia].
Defined.

(** C5.  A call of the retriever that raises anything but the
    ingestion-in-progress signal, after [n <= 4] signals: [create_quiz]
    raises that very exception.  The failing call is the last thing that
    happens: no log line, no wait and no further call follow it, the waits
    made are the [n] of the signals before it, and the model is not
    called.  A run of the workflow in which this happens in the first round
    raises the same exception. *)
Theorem other_retrieval_failure_propagates
    (state : GraphState) (retriever : nat -> Answer (list Document))
    (content : LlmContent) (n : nat) (e : Exn) :
  settles retriever n (Raises e) ->
  is_ingestion_in_progress e = false ->
  (exists t,
     create_quiz state retriever content =
       (EvGetOrCreateIndex (st_index_name state) (st_bucket_name state)
          :: EvIngestData (st_index_name state)
          :: t ++ [EvRetrieve (st_index_name state) 10 (st_quiz_topic state)],
        Raise e) /\
     sleeps t = repeat 5 n /\
     count is_retrieve t = n /\
     count is_llm_invoke t = 0) /\
  (forall input response rest,
     resp_messages response <> [] ->
     result (graph input ({| agent_response := response;
                             retriever := retriever;
                             llm_content := content |} :: rest)) = Raise e).
Proof.
  intros (Hn & Hbusy & Hret) He. split.
  - destruct (retrieve_context_raises state retriever n e Hn Hbusy Hret He)
      as (t & Hctx & Hs & Hc & Hl).
    exists t. rewrite (create_quiz_without_context _ _ content _ _ Hctx).
    repeat split; assumption.
  - intros input response rest Hne.
    destruct (last (resp_messages response)) as [m|] eqn:Hm;
      [|apply last_None in Hm; contradiction].
    destruct (retrieve_context_raises (after_research (prepare_input input) m)
                retriever n e Hn Hbusy Hret He) as (t & Hctx & _).
    unfold graph.
    erewrite from_invoke_researcher_raises; [reflexivity | reflexivity | exact Hm |].
    cbn [agent_response QuizGenerator.retriever llm_content].
    apply (create_quiz_without_context _ _ content _ _ Hctx).
Qed.

Lemma other_retrieval_failure_propagates_witness :
  (exists t,
     create_quiz (prepare_input Scenario.input)
       (Scenario.busy_then 1 (Raises (OtherError "ConnectionError"))) Scenario.sufficient =
       (EvGetOrCreateIndex "i" "b" :: EvIngestData "i"
          :: t ++ [EvRetrieve "i" 10 "black holes"],
        Raise (OtherError "ConnectionError")) /\
     sleeps t = repeat 5 1 /\
     count is_retrieve t = 1 /\
     count is_llm_invoke t = 0) /\
  (forall input response rest,
     resp_messages response <> [] ->
     result (graph input
               ({| agent_response := response;
                   retriever := Scenario.busy_then 1 (Raises (OtherError "ConnectionError"));
                   llm_content := Scenario.sufficient |} :: rest)) =
       Raise (OtherError "ConnectionError")).
Proof.
  apply (other_retrieval_failure_propagates (prepare_input Scenario.input)
           (Scenario.busy_then 1 (Raises (OtherError "ConnectionError")))
           Scenario.sufficient 1 (OtherError "ConnectionError")).
  - split; [lia|]. split; [|reflexivity].
    intros k Hk. unfold Scenario.busy_then.
    destruct (Nat.ltb_spec k 1); [reflexivity | lia].
  - reflexivity.
Defined.

(** ** Answers of the model that do not parse, or parse to no quiz *)

(** An answer that does not parse leaves the state as it was: the Command
    writes nothing, and its [goto] adds no branch. *)
Lemma unparsed_answer_changes_nothing (state : GraphState) (content : LlmContent) (e : Exn) :
  output_parser_parse content = Raise e ->
  command_for content = {| update := no_update; goto := Some END |} /\
  goto_branches (command_for content) = [] /\
  apply_update (update (command_for content)) state = state.
Proof.
  intros Hparse. unfold command_for. rewrite Hparse.
  repeat split. destruct state; reflexivity.
Qed.

(** C4.  The first answer of the model does not parse.  [create_quiz]
    returns [Command(goto=END)] and writes nothing; the conditional edge
    then reads the marker "false" that [prepare_input] wrote, picks
    [return_quiz], and [return_quiz] raises [KeyError] on the key [quiz],
    which no node has written.  When the answer that does not parse comes
    after a gap, the edge reads that gap again and the run goes back to the
    researcher with the same request. *)
Theorem unparsed_answer_still_takes_the_conditional_edge :
  output_parser_parse Scenario.malformed = Raise OutputParserException /\
  result (create_quiz (after_research (prepare_input Scenario.input)
                         ResearcherUploader.acknowledgment)
            (Scenario.busy_then 0 (Returns Scenario.documents)) Scenario.malformed) =
    Ok {| update := no_update; goto := Some END |} /\
  result (graph Scenario.input [Scenario.round_with Scenario.malformed]) =
    Raise (KeyError "quiz") /\
  map request_of
    (interrupts (trace (graph Scenario.input
                          [Scenario.round_with (Scenario.gap "mass of Sagittarius A*");
                           Scenario.round_with Scenario.malformed]))) =
    [Some (HumanMessage "Fetch data about space");
     Some (HumanMessage "mass of Sagittarius A*");
     Some (HumanMessage "mass of Sagittarius A*")].
Proof. repeat split; vm_compute; reflexivity. Qed.

(** C10.  The model answers with the marker "false" and no quiz.  The
    validator of [quiz] runs before [additional_info] is among the values it
    is handed, so the answer parses; [create_quiz] stores the marker "false"
    with no quiz, the conditional edge picks [return_quiz], and building the
    output raises. *)
Theorem false_marker_without_quiz_reaches_return_quiz :
  output_parser_parse Scenario.false_without_quiz =
    Ok {| quiz := None; additional_info := Some "false" |} /\
  (let state := apply_update (update (command_for Scenario.false_without_quiz))
                  (after_research (prepare_input Scenario.input)
                     ResearcherUploader.acknowledgment) in
   st_additional_info state = Present (Some "false") /\
   st_quiz state = Present None /\
   check_quiz_creation state = Ok To_return_quiz /\
   return_quiz state = Raise (ValidationError "GraphOutput")) /\
  result (graph Scenario.input [Scenario.round_with Scenario.false_without_quiz]) =
    Raise (ValidationError "GraphOutput").
Proof. repeat split; vm_compute; reflexivity. Qed.

(** ** What validation leaves open *)

(** C6, as stated, fails: an answer that holds a quiz together with a gap
    marker passes validation with both in place. *)
Lemma validation_admits_quiz_with_gap_marker :
  exists r,
    QuizOrInsufficientInfo_validate
      {| raw_quiz := Some Scenario.quiz3;
         raw_additional_info := Some "mass of Sagittarius A*" |} = Ok r /\
    quiz r = Some Scenario.quiz3 /\
    additional_info r = Some "mass of Sagittarius A*" /\
    additional_info r <> Some "false".
Proof.
  eexists. split; [vm_compute; reflexivity|].
  repeat split. discriminate.
Qed.

(** C6, amended.  Validation does not keep a quiz and a gap marker apart;
    [create_quiz] does when it stores a value of the result type, validated
    or not (lines 148-151): if the state then holds a quiz, it is the quiz
    of the value and the marker stored with it is "false"; and if the marker
    stored is not "false", the state holds no quiz. *)
Theorem stored_quiz_excludes_gap_marker (r : QuizOrInsufficientInfo) (state : GraphState) :
  (forall q,
     st_quiz (apply_update (llm_response_update r) state) = Present (Some q) ->
     quiz r = Some q /\
     st_additional_info (apply_update (llm_response_update r) state) =
       Present (Some "false")) /\
  (st_additional_info (apply_update (llm_response_update r) state) <>
     Present (Some "false") ->
   st_quiz (apply_update (llm_response_update r) state) = Present None).
Proof.
  unfold llm_response_update, apply_update. cbn.
  destruct (eq_str (additional_info r) "false") eqn:Hm.
  - apply eq_str_true in Hm. rewrite Hm. split.
    + intros q [= Hq]. split; [exact Hq | reflexivity].
    + intros Hne. contradiction.
  - split; [intros q [= ] | reflexivity].
Qed.

Lemma stored_quiz_excludes_gap_marker_witness :
  st_quiz
    (apply_update
       (llm_response_update
          {| quiz := Some Scenario.quiz3;
             additional_info := Some "mass of Sagittarius A*" |})
       (prepare_input Scenario.input)) = Present None.
Proof.
  apply (proj2 (stored_quiz_excludes_gap_marker
                  {| quiz := Some Scenario.quiz3;
                     additional_info := Some "mass of Sagittarius A*" |}
                  (prepare_input Scenario.input))).
  discriminate.
Defined.

(** ** Runs of the quiz workflow *)

Section Runs.

Lemma request_of_process_for (state : GraphState) :
  request_of (process_for state) = Some (HumanMessage (request_text state)).
Proof. unfold request_of, process_for. cbn. apply last_snoc. Qed.

Lemma last_of_nonempty {A} (l : list A) : l <> [] -> exists x, last l = Some x.
Proof.
  intros Hne. destruct (last l) as [x|] eqn:Hl; [eauto|].
  apply last_None in Hl. contradiction.
Qed.

(** Whatever the answers, [create_quiz] starts no sub-process, and calls
    the model at most once, as the last thing it does. *)
Lemma create_quiz_shape (state : GraphState) (retriever : nat -> Answer (list Document))
    (content : LlmContent) :
  exists t,
    interrupts t = [] /\
    count is_llm_invoke t = 0 /\
    ((exists e, create_quiz state retriever content = (t, Raise e)) \/
     (exists ctx cmd,
        create_quiz state retriever content =
          (t ++ [EvLlmInvoke (st_quiz_topic state) ctx], Ok cmd))).
Proof.
  destruct (retrieve_context_quiet state retriever) as [Hi Hl].
  destruct (retrieve_context state retriever) as [t [ctx|e]] eqn:Hctx;
    unfold trace in Hi, Hl; cbn [fst] in Hi, Hl.
  - exists (EvGetOrCreateIndex (st_index_name state) (st_bucket_name state)
              :: EvIngestData (st_index_name state) :: t).
    repeat split; try assumption. right.
    rewrite (create_quiz_with_context _ _ content _ _ Hctx). eauto.
  - exists (EvGetOrCreateIndex (st_index_name state) (st_bucket_name state)
              :: EvIngestData (st_index_name state) :: t).
    repeat split; try assumption. left.
    rewrite (create_quiz_without_context _ _ content _ _ Hctx). eauto.
Qed.

(** Every run from [invoke_researcher] opens with the request to the
    researcher, and nothing between it and the first call of the model
    starts a sub-process. *)
Lemma from_invoke_researcher_opens (state : GraphState) (a : option string)
    (script : list Round) :
  st_additional_info state = Present a ->
  exists t,
    trace (from_invoke_researcher script state) = EvInterrupt (process_for state) :: t /\
    interrupts (before_first_llm t) = [].
Proof.
  intros Ha. destruct script as [|round rest].
  - rewrite (from_invoke_researcher_waits _ _ Ha). exists []. split; reflexivity.
  - cbn [from_invoke_researcher].
    destruct (last (resp_messages (agent_response round))) as [m|] eqn:Hm.
    + rewrite (invoke_researcher_answered _ _ _ _ Ha Hm).
      unfold bind at 1. cbn [snd fst update]. fold (after_research state m).
      destruct (create_quiz_shape (after_research state m) (retriever round)
                  (llm_content round)) as (t & Hi & Hl & [[e Hcq]|(ctx & cmd & Hcq)]);
        rewrite Hcq.
      * exists t. split; [reflexivity|].
        rewrite before_first_llm_none by exact Hl. exact Hi.
      * rewrite (bind_ok _ _ cmd) by reflexivity.
        unfold trace, result. cbn [fst snd app].
        eexists. split; [reflexivity|].
        rewrite <- app_assoc, before_first_llm_app by exact Hl.
        cbn. rewrite app_nil_r. exact Hi.
    + exists []. split; [|reflexivity].
      unfold invoke_researcher.
      rewrite (invoke_researcher_request_present _ _ Ha), bind_lift_ok.
      cbn [fst snd]. rewrite bind_emit.
      unfold invoke_researcher_resume, last_item. rewrite Hm. reflexivity.
Qed.

(** After an answer that parses with a gap the run is at
    [invoke_researcher] again. *)
Lemma after_create_quiz_gap (rest : list Round) (state : GraphState) (a : option string) :
  st_additional_info state = Present a ->
  a <> Some "false" ->
  after_create_quiz rest state = from_invoke_researcher rest state.
Proof.
  intros Ha Hne. apply eq_str_false in Hne.
  unfold after_create_quiz, check_quiz_creation.
  rewrite Ha. cbn [getitem]. rewrite Hne. cbn [negb].
  rewrite bind_lift_ok. reflexivity.
Qed.

(** After an answer that parses with the marker "false" and a quiz the run
    ends with that quiz. *)
Lemma after_create_quiz_done (rest : list Round) (state : GraphState) (q : Quiz) :
  st_additional_info state = Present (Some "false") ->
  st_quiz state = Present (Some q) ->
  after_create_quiz rest state = ([], Ok (Finished {| out_quiz := q |})).
Proof.
  intros Ha Hq. unfold after_create_quiz, check_quiz_creation, return_quiz.
  rewrite Ha, Hq. reflexivity.
Qed.

(** Rounds that all report a gap: each is one request and one call of the
    model, and after them the run is at [invoke_researcher], on a state
    whose next request is the gap of the last round. *)
Lemma gap_rounds_run (script : list Round) :
  forall state a,
    st_additional_info state = Present a ->
    Forall gap_round script ->
    exists t state',
      (forall more,
         from_invoke_researcher (script ++ more) state =
           (t ++ trace (from_invoke_researcher more state'),
            result (from_invoke_researcher more state'))) /\
      (exists a', st_additional_info state' = Present a') /\
      map request_of (interrupts t) ++ [Some (HumanMessage (request_text state'))] =
        Some (HumanMessage (request_text state))
          :: map (fun round => Some (HumanMessage (gap_of (llm_content round)))) script /\
      count is_llm_invoke t = length script /\
      length (interrupts t) = length script.
Proof.
  induction script as [|round script IH]; intros state a Ha Hgaps.
  - exists [], state. repeat split; eauto. intros more. apply eff_eta.
  - apply Forall_cons in Hgaps as [(r & (Hresp & (n & d & ds & Hset) & Hparse) & Hmark) Hgaps].
    destruct (last_of_nonempty _ Hresp) as [m Hm].
    destruct (from_invoke_researcher_round state a round m n d ds Ha Hm Hset)
      as (t1 & _ & Hi1 & Hl1 & Hrun).
    set (state3 := apply_update (update (command_for (llm_content round)))
                     (after_research state m)) in *.
    assert (Ha3 : st_additional_info state3 = Present (additional_info r)).
    { unfold state3, command_for. rewrite Hparse. reflexivity. }
    assert (Htext : request_text state3 = gap_of (llm_content round)).
    { unfold request_text, gap_of. rewrite Ha3, Hparse. cbn [get_or_None].
      apply eq_str_false in Hmark. rewrite Hmark. reflexivity. }
    destruct (IH state3 (additional_info r) Ha3 Hgaps)
      as (t2 & state' & Hrest & Ha' & Hreq & Hl2 & Hi2).
    exists (EvInterrupt (process_for state)
              :: EvGetOrCreateIndex (st_index_name state) (st_bucket_name state)
              :: EvIngestData (st_index_name state)
              :: t1 ++ EvLlmInvoke (st_quiz_topic state) (d :: ds) :: t2), state'.
    split; [|split; [exact Ha'|split; [|split]]].
    + intros more. cbn [app]. rewrite (Hrun (script ++ more)).
      cbn zeta. fold state3.
      rewrite (after_create_quiz_gap _ _ _ Ha3 Hmark), (Hrest more).
      unfold trace, result. cbn [fst snd].
      rewrite <- app_assoc. reflexivity.
    + cbn [interrupts map app]. rewrite interrupts_app, Hi1. cbn [app interrupts].
      rewrite request_of_process_for. f_equal.
      rewrite Hreq, Htext. reflexivity.
    + cbn [count is_llm_invoke]. rewrite count_app, Hl1. cbn. rewrite Hl2. reflexivity.
    + cbn [interrupts length]. rewrite interrupts_app, Hi1. cbn. rewrite Hi2. reflexivity.
Qed.

(** In the first round, an answer that does not parse ends the run with
    [KeyError] on [quiz]. *)
Lemma first_answer_unparsed_raises (input : GraphInput) (round : Round) (rest : list Round)
    (e : Exn) :
  resp_messages (agent_response round) <> [] ->
  (exists n d ds, settles (retriever round) n (Returns (d :: ds))) ->
  output_parser_parse (llm_content round) = Raise e ->
  result (graph input (round :: rest)) = Raise (KeyError "quiz").
Proof.
  intros Hresp (n & d & ds & Hset) Hparse.
  destruct (last_of_nonempty _ Hresp) as [m Hm].
  destruct (from_invoke_researcher_round (prepare_input input) _ round m n d ds
              eq_refl Hm Hset) as (t & _ & _ & _ & Hrun).
  unfold graph. rewrite (Hrun rest). cbn zeta.
  unfold command_for. rewrite Hparse. reflexivity.
Qed.

(** In any round, an answer that parses with the marker "false" and no
    quiz ends the run with the validation error of [GraphOutput]. *)
Lemma false_marker_without_quiz_raises (state : GraphState) (a : option string)
    (round : Round) (rest : list Round) (r : QuizOrInsufficientInfo) :
  st_additional_info state = Present a ->
  parsed_round round r ->
  additional_info r = Some "false" ->
  quiz r = None ->
  result (from_invoke_researcher (round :: rest) state) =
    Raise (ValidationError "GraphOutput").
Proof.
  intros Ha (Hresp & (n & d & ds & Hset) & Hparse) Hmark Hquiz.
  destruct (last_of_nonempty _ Hresp) as [m Hm].
  destruct (from_invoke_researcher_round state a round m n d ds Ha Hm Hset)
    as (t & _ & _ & _ & Hrun).
  rewrite (Hrun rest). cbn zeta.
  unfold command_for. rewrite Hparse.
  unfold after_create_quiz, check_quiz_creation, return_quiz, llm_response_update.
  cbn. rewrite Hmark, Hquiz. reflexivity.
Qed.

End Runs.

(** C7.  Every run starts from a state whose marker is "false", and opens
    with one request to the researcher, for data about the general category;
    before the first call of the model there is exactly that one request.
    If the first round's answer parses with the marker "false" and the quiz
    [q] of the answer, the run ends with [q] as its output after that one
    request and one call of the model. *)
Theorem bootstrap_research_then_quiz (input : GraphInput) (script : list Round) :
  st_additional_info (prepare_input input) = Present (Some "false") /\
  (exists p t,
     trace (graph input script) = EvInterrupt p :: t /\
     request_of p =
       Some (HumanMessage ("Fetch data about " +:+ in_general_category input)) /\
     arg_messages (input_arguments p) =
       [HumanMessage ("Fetch data about " +:+ in_general_category input)]) /\
  length (interrupts (before_first_llm (trace (graph input script)))) = 1 /\
  (forall round rest fields q r,
     script = round :: rest ->
     parsed_round round r ->
     llm_content round = JsonObject fields ->
     raw_additional_info fields = Some "false" ->
     raw_quiz fields = Some q ->
     result (graph input script) = Ok (Finished {| out_quiz := q |}) /\
     length (interrupts (trace (graph input script))) = 1 /\
     count is_llm_invoke (trace (graph input script)) = 1).
Proof.
  assert (Ha : st_additional_info (prepare_input input) = Present (Some "false"))
    by reflexivity.
  split; [exact Ha|]. split; [|split].
  - destruct (from_invoke_researcher_opens _ _ script Ha) as (t & Ht & _).
    exists (process_for (prepare_input input)), t. split; [exact Ht|].
    split; reflexivity.
  - destruct (from_invoke_researcher_opens _ _ script Ha) as (t & Ht & Hi).
    unfold graph. rewrite Ht. cbn. rewrite Hi. reflexivity.
  - intros round rest fields q r -> (Hresp & (n & d & ds & Hset) & Hparse) Hcontent Hmark Hquiz.
    destruct (last_of_nonempty _ Hresp) as [m Hm].
    destruct (from_invoke_researcher_round _ _ round m n d ds Ha Hm Hset)
      as (t & _ & Hi & Hl & Hrun).
    destruct (output_parser_parse_fields _ _ Hparse) as (fields' & Hc' & Hq & Hmk).
    rewrite Hcontent in Hc'. injection Hc' as <-.
    rewrite Hquiz in Hq. rewrite Hmark in Hmk.
    unfold graph. rewrite (Hrun rest). cbn zeta.
    rewrite (after_create_quiz_done rest _ q).
    + unfold trace, result. cbn [fst snd interrupts count is_llm_invoke length].
      rewrite interrupts_app, count_app, Hi, Hl. repeat split.
    + unfold command_for. rewrite Hparse. cbn. rewrite Hmk. reflexivity.
    + unfold command_for. rewrite Hparse. cbn. rewrite Hmk. cbn.
      rewrite Hq. reflexivity.
Qed.

Lemma bootstrap_research_then_quiz_witness :
  result (graph Scenario.input [Scenario.round_with Scenario.sufficient]) =
    Ok (Finished {| out_quiz := Scenario.quiz3 |}) /\
  length (interrupts (trace (graph Scenario.input
                               [Scenario.round_with Scenario.sufficient]))) = 1 /\
  count is_llm_invoke (trace (graph Scenario.input
                                [Scenario.round_with Scenario.sufficient])) = 1.
Proof.
  apply (proj2 (proj2 (proj2 (bootstrap_research_then_quiz Scenario.input
                                [Scenario.round_with Scenario.sufficient])))
           (Scenario.round_with Scenario.sufficient) []
           {| raw_quiz := Some Scenario.quiz3; raw_additional_info := Some "false" |}
           Scenario.quiz3
           {| quiz := Some Scenario.quiz3; additional_info := Some "false" |}).
  - reflexivity.
  - split; [discriminate|]. split; [|vm_compute; reflexivity].
    exists 0, {| page_content := "Black holes bend light." |}, [].
    split; [lia|]. split; [intros k Hk; lia | reflexivity].
  - reflexivity.
  - reflexivity.
  - reflexivity.
Defined.

(** C9.  [n] rounds in a row whose parsed answers report a gap: the run
    makes [n] calls of the model and [n + 1] requests to the researcher (the
    opening one, then one for the gap of each round, in order), and is then
    waiting for the researcher: neither finished nor failed.  Whatever
    rounds follow are run from [invoke_researcher] like the ones before. *)
Theorem sufficiency_loop_has_no_cap (n : nat) (input : GraphInput) (script : list Round) :
  length script = n ->
  Forall gap_round script ->
  exists t state,
    (forall more,
       graph input (script ++ more) =
         (t ++ trace (from_invoke_researcher more state),
          result (from_invoke_researcher more state))) /\
    graph input script =
      (t ++ [EvInterrupt (process_for state)], Ok (Suspended (after_request state))) /\
    map request_of (interrupts (trace (graph input script))) =
      Some (HumanMessage ("Fetch data about " +:+ in_general_category input))
        :: map (fun round => Some (HumanMessage (gap_of (llm_content round)))) script /\
    length (interrupts (trace (graph input script))) = S n /\
    count is_llm_invoke (trace (graph input script)) = n.
Proof.
  intros Hlen Hgaps.
  destruct (gap_rounds_run script (prepare_input input) (Some "false") eq_refl Hgaps)
    as (t & state & Hrun & (a' & Ha') & Hreq & Hl & Hi).
  assert (Hgraph : graph input script =
            (t ++ [EvInterrupt (process_for state)], Ok (Suspended (after_request state)))).
  { unfold graph. rewrite <- (app_nil_r script) at 1. rewrite (Hrun []).
    rewrite (from_invoke_researcher_waits _ _ Ha'). reflexivity. }
  exists t, state. split; [exact Hrun|]. split; [exact Hgraph|].
  rewrite Hgraph. unfold trace. cbn [fst].
  rewrite interrupts_app, count_app, map_app, length_app.
  cbn [interrupts map count is_llm_invoke length].
  rewrite request_of_process_for, Hreq, Hl, Hi, <- Hlen.
  repeat split; lia.
Qed.

Lemma sufficiency_loop_has_no_cap_witness :
  exists t state,
    (forall more,
       graph Scenario.input
         ([Scenario.round_with (Scenario.gap "mass of Sagittarius A*");
           Scenario.round_with (Scenario.gap_with_quiz "Hawking radiation")] ++ more) =
         (t ++ trace (from_invoke_researcher more state),
          result (from_invoke_researcher more state))) /\
    graph Scenario.input
      [Scenario.round_with (Scenario.gap "mass of Sagittarius A*");
       Scenario.round_with (Scenario.gap_with_quiz "Hawking radiation")] =
      (t ++ [EvInterrupt (process_for state)], Ok (Suspended (after_request state))) /\
    map request_of
      (interrupts (trace (graph Scenario.input
         [Scenario.round_with (Scenario.gap "mass of Sagittarius A*");
          Scenario.round_with (Scenario.gap_with_quiz "Hawking radiation")]))) =
      Some (HumanMessage ("Fetch data about " +:+ in_general_category Scenario.input))
        :: map (fun round => Some (HumanMessage (gap_of (llm_content round))))
             [Scenario.round_with (Scenario.gap "mass of Sagittarius A*");
              Scenario.round_with (Scenario.gap_with_quiz "Hawking radiation")] /\
    length (interrupts (trace (graph Scenario.input
         [Scenario.round_with (Scenario.gap "mass of Sagittarius A*");
          Scenario.round_with (Scenario.gap_with_quiz "Hawking radiation")]))) = 3 /\
    count is_llm_invoke (trace (graph Scenario.input
         [Scenario.round_with (Scenario.gap "mass of Sagittarius A*");
          Scenario.round_with (Scenario.gap_with_quiz "Hawking radiation")])) = 2.
Proof.
  apply (sufficiency_loop_has_no_cap 2 Scenario.input
           [Scenario.round_with (Scenario.gap "mass of Sagittarius A*");
            Scenario.round_with (Scenario.gap_with_quiz "Hawking radiation")]).
  - reflexivity.
  - repeat constructor.
    + exists {| quiz := None; additional_info := Some "mass of Sagittarius A*" |}.
      split; [|discriminate].
      split; [discriminate|]. split; [|vm_compute; reflexivity].
      exists 0, {| page_content := "Black holes bend light." |}, [].
      split; [lia|]. split; [intros k Hk; lia | reflexivity].
    + exists {| quiz := Some Scenario.quiz3; additional_info := Some "Hawking radiation" |}.
      split; [|discriminate].
      split; [discriminate|]. split; [|vm_compute; reflexivity].
      exists 0, {| page_content := "Black holes bend light." |}, [].
      split; [lia|]. split; [intros k Hk; lia | reflexivity].
Defined.

(** ** The researcher workflow *)

Lemma acknowledgments_app (ms ms' : list Message) :
  acknowledgments (ms ++ ms') = acknowledgments ms + acknowledgments ms'.
Proof.
  induction ms as [|m ms IH]; cbn [app acknowledgments]; [reflexivity|].
  destruct (is_acknowledgment m); rewrite IH; reflexivity.
Qed.

(** C8, as stated, fails: called with the conversation of the quiz
    workflow's second request, which holds the acknowledgment of the first,
    the researcher workflow returns a conversation with two acknowledgments. *)
Lemma second_research_returns_two_acknowledgments :
  nth_error
    (map (fun p => arg_messages (input_arguments p))
       (interrupts (trace (QuizGenerator.graph Scenario.input
                             [Scenario.round_with (Scenario.gap "mass of Sagittarius A*")]))))
    1 = Some Scenario.second_conversation /\
  exists returned,
    result (ResearcherUploader.graph Scenario.researcher_input Scenario.researched
              1700000000) = Ok returned /\
    acknowledgments (ResearcherUploader.ms_messages returned) = 2.
Proof.
  split; [vm_compute; reflexivity|].
  eexists. split; vm_compute; reflexivity.
Qed.

(** C8, amended.  For findings [F] (the text of the last message of the
    search agent) and time [T], the one upload of a run is to path
    ["{T}.txt"], with content type ["application/txt"] and body [F], into the
    bucket of the input.  The last node returns one message, the
    acknowledgment; the workflow returns the incoming conversation followed
    by that one message.  So the findings are in the returned conversation
    only where they were in the incoming one, or are the text of the
    acknowledgment itself. *)
Theorem research_is_uploaded_and_acknowledged
    (input : ResearcherUploader.GraphInput) (agent_result : ResearcherUploader.AgentResult)
    (m : Message) (T : Z) :
  last (ResearcherUploader.res_messages agent_result) = Some m ->
  uploads (trace (ResearcherUploader.graph input agent_result T)) =
    [{| up_bucket_name := ResearcherUploader.in_bucket_name input;
        blob_file_path := format_int T +:+ ".txt";
        content_type := "application/txt";
        content := content_of m |}] /\
  (forall state,
     result (ResearcherUploader.upload_to_bucket state T) =
       Ok {| ResearcherUploader.ms_messages := [ResearcherUploader.acknowledgment] |}) /\
  result (ResearcherUploader.graph input agent_result T) =
    Ok {| ResearcherUploader.ms_messages :=
            ResearcherUploader.in_messages input ++ [ResearcherUploader.acknowledgment] |} /\
  (forall returned,
     result (ResearcherUploader.graph input agent_result T) = Ok returned ->
     acknowledgments (ResearcherUploader.ms_messages returned) =
       S (acknowledgments (ResearcherUploader.in_messages input)) /\
     (In (content_of m) (map content_of (ResearcherUploader.ms_messages returned)) <->
      In (content_of m) (map content_of (ResearcherUploader.in_messages input)) \/
      content_of m = "Relevant information uploaded to bucket.")).
Proof.
  intros Hm.
  assert (Hrun : ResearcherUploader.graph input agent_result T =
            ([EvAgentInvoke (ResearcherUploader.in_messages input);
              EvUpload {| up_bucket_name := ResearcherUploader.in_bucket_name input;
                          blob_file_path := format_int T +:+ ".txt";
                          content_type := "application/txt";
                          content := content_of m |}],
             Ok {| ResearcherUploader.ms_messages :=
                     ResearcherUploader.in_messages input
                       ++ [ResearcherUploader.acknowledgment] |})).
  { unfold ResearcherUploader.graph, ResearcherUploader.research_node,
      ResearcherUploader.upload_to_bucket, last_item.
    rewrite Hm. reflexivity. }
  rewrite Hrun. split; [reflexivity|]. split; [intros state; reflexivity|].
  split; [reflexivity|].
  intros returned [= <-]. cbn [ResearcherUploader.ms_messages]. split.
  - rewrite acknowledgments_app. cbn. lia.
  - rewrite map_app, in_app_iff. cbn. intuition congruence.
Qed.

Lemma research_is_uploaded_and_acknowledged_witness :
  uploads (trace (ResearcherUploader.graph Scenario.researcher_input Scenario.researched
                    1700000000)) =
    [{| up_bucket_name := "b";
        blob_file_path := format_int 1700000000 +:+ ".txt";
        content_type := "application/txt";
        content := Scenario.findings |}] /\
  format_int 1700000000 +:+ ".txt" = "1700000000.txt".
Proof.
  split; [|reflexivity].
  apply (proj1 (research_is_uploaded_and_acknowledged Scenario.researcher_input
                  Scenario.researched (AIMessage Scenario.findings) 1700000000
                  eq_refl)).
Defined.

(** ** More laws of the effect monad *)

Lemma trace_bind {A B} (m : Eff A) (k : A -> Eff B) :
  trace (bind m k) =
    trace m ++ match result m with Ok a => trace (k a) | Raise _ => [] end.
Proof.
  destruct m as [t [a|e]]; unfold trace, result; cbn [bind fst snd].
  - destruct (k a); reflexivity.
  - rewrite app_nil_r. reflexivity.
Qed.

Lemma result_bind {A B} (m : Eff A) (k : A -> Eff B) :
  result (bind m k) =
    match result m with Ok a => result (k a) | Raise e => Raise e end.
Proof.
  destruct m as [t [a|e]]; unfold result; cbn [bind snd]; [|reflexivity].
  destruct (k a); reflexivity.
Qed.

Lemma Forall_trace_bind {A B} (P : Event -> Prop) (m : Eff A) (k : A -> Eff B) :
  Forall P (trace m) ->
  (forall a, result m = Ok a -> Forall P (trace (k a))) ->
  Forall P (trace (bind m k)).
Proof.
  intros Hm Hk. rewrite trace_bind. apply Forall_app. split; [exact Hm|].
  destruct (result m) as [a|e]; [apply Hk; reflexivity | constructor].
Qed.

(** ** What parses *)

Lemma validate_items_valid (items : list QuizItem) :
  validate_items items =
    if items_valid items then Ok items else Raise (ValidationError "QuizItem").
Proof.
  induction items as [|item rest IH]; [reflexivity|].
  cbn [validate_items items_valid forallb]. unfold QuizItem_validate.
  fold (in_unit_interval (difficulty item)). fold (items_valid rest).
  destruct (in_unit_interval (difficulty item)); [|reflexivity].
  rewrite IH. destruct (items_valid rest); reflexivity.
Qed.

Lemma QuizOrInsufficientInfo_validate_valid (fields : RawFields) :
  QuizOrInsufficientInfo_validate fields =
    if quiz_valid (raw_quiz fields)
    then Ok {| quiz := raw_quiz fields; additional_info := raw_additional_info fields |}
    else Raise (ValidationError "QuizItem").
Proof.
  unfold QuizOrInsufficientInfo_validate, validate_optional_quiz, quiz_valid.
  destruct (raw_quiz fields) as [[items]|]; [|reflexivity].
  unfold Quiz_validate. cbn [quiz_items]. rewrite validate_items_valid.
  destruct (items_valid items); reflexivity.
Qed.

(** The answers that parse are the JSON objects whose quiz, if there is
    one, has the difficulty of every item within [0, 1] (a NaN is not); the
    marker plays no part.  The parsed value holds the two fields as they
    came.  Anything else raises the parser's exception. *)
Theorem parse_accepts_quizzes_in_bounds (content : LlmContent) :
  (forall r,
     output_parser_parse content = Ok r <->
     exists fields,
       content = JsonObject fields /\
       quiz_valid (raw_quiz fields) = true /\
       r = {| quiz := raw_quiz fields;
              additional_info := raw_additional_info fields |}) /\
  (forall e, output_parser_parse content = Raise e -> e = OutputParserException).
Proof.
  split.
  - intros r. destruct content as [text|fields]; cbn [output_parser_parse].
    + split; [discriminate | intros (fields & [=] & _)].
    + rewrite QuizOrInsufficientInfo_validate_valid.
      destruct (quiz_valid (raw_quiz fields)) eqn:Hv; split.
      * intros [= <-]. exists fields. auto.
      * intros (fields' & [= <-] & _ & ->). reflexivity.
      * discriminate.
      * intros (fields' & [= <-] & Hv' & _). congruence.
  - intros e. destruct content as [text|fields]; cbn [output_parser_parse].
    + intros [= <-]. reflexivity.
    + destruct (QuizOrInsufficientInfo_validate fields); [discriminate|].
      intros [= <-]. reflexivity.
Qed.

(** ** The shape of a run *)

Lemma create_quiz_unfold (state : GraphState) (retriever : nat -> Answer (list Document))
    (content : LlmContent) :
  create_quiz state retriever content =
    (EvGetOrCreateIndex (st_index_name state) (st_bucket_name state)
       :: EvIngestData (st_index_name state)
       :: trace (retrieve_context state retriever)
       ++ match result (retrieve_context state retriever) with
          | Ok ctx => [EvLlmInvoke (st_quiz_topic state) ctx]
          | Raise _ => []
          end,
     match result (retrieve_context state retriever) with
     | Ok _ => Ok (command_for content)
     | Raise e => Raise e
     end).
Proof.
  destruct (retrieve_context state retriever) as [t [ctx|e]] eqn:Hctx.
  - rewrite (create_quiz_with_context _ _ content _ _ Hctx). reflexivity.
  - rewrite (create_quiz_without_context _ _ content _ _ Hctx).
    unfold trace, result. cbn [fst snd]. rewrite app_nil_r. reflexivity.
Qed.

Lemma invoke_researcher_absent (state : GraphState) (response : option AgentResponse) :
  st_additional_info state = Absent ->
  invoke_researcher state response = ([], Raise (KeyError "additional_info")).
Proof.
  intros Ha. unfold invoke_researcher, invoke_researcher_request.
  rewrite Ha. reflexivity.
Qed.

Lemma invoke_researcher_no_message (state : GraphState) (a : option string)
    (response : AgentResponse) :
  st_additional_info state = Present a ->
  last (resp_messages response) = None ->
  invoke_researcher state (Some response) =
    ([EvInterrupt (process_for state)], Raise IndexError).
Proof.
  intros Ha Hm. unfold invoke_researcher.
  rewrite (invoke_researcher_request_present _ _ Ha), bind_lift_ok.
  cbn [fst snd]. rewrite bind_emit.
  unfold invoke_researcher_resume, last_item. rewrite Hm. reflexivity.
Qed.

Lemma from_invoke_researcher_nil (state : GraphState) :
  from_invoke_researcher [] state =
    match st_additional_info state with
    | Absent => ([], Raise (KeyError "additional_info"))
    | Present _ =>
        ([EvInterrupt (process_for state)], Ok (Suspended (after_request state)))
    end.
Proof.
  destruct (st_additional_info state) as [|a] eqn:Ha.
  - cbn [from_invoke_researcher]. rewrite (invoke_researcher_absent _ _ Ha). reflexivity.
  - apply (from_invoke_researcher_waits _ _ Ha).
Qed.

Lemma from_invoke_researcher_cons (round : Round) (rest : list Round) (state : GraphState) :
  from_invoke_researcher (round :: rest) state =
    match st_additional_info state with
    | Absent => ([], Raise (KeyError "additional_info"))
    | Present _ =>
        match last (resp_messages (agent_response round)) with
        | None => ([EvInterrupt (process_for state)], Raise IndexError)
        | Some m =>
            let state2 := after_research state m in
            let cq := create_quiz state2 (retriever round) (llm_content round) in
            (EvInterrupt (process_for state)
               :: trace cq
               ++ match result cq with
                  | Ok cmd =>
                      trace (after_create_quiz rest (apply_update (update cmd) state2))
                  | Raise _ => []
                  end,
             match result cq with
             | Ok cmd => result (after_create_quiz rest (apply_update (update cmd) state2))
             | Raise e => Raise e
             end)
        end
    end.
Proof.
  destruct (st_additional_info state) as [|a] eqn:Ha.
  - cbn [from_invoke_researcher]. rewrite (invoke_researcher_absent _ _ Ha). reflexivity.
  - destruct (last (resp_messages (agent_response round))) as [m|] eqn:Hm.
    + cbn [from_invoke_researcher].
      rewrite (invoke_researcher_answered _ _ _ _ Ha Hm).
      unfold bind at 1. cbn [snd fst update]. fold (after_research state m).
      cbn zeta.
      destruct (create_quiz (after_research state m) (retriever round) (llm_content round))
        as [t [cmd|e]]; unfold trace at 1, result at 1 2; cbn [fst snd].
      * unfold bind at 1.
        fold (after_create_quiz rest (apply_update (update cmd) (after_research state m))).
        destruct (after_create_quiz rest _) as [t' r'].
        unfold trace, result. reflexivity.
      * unfold bind at 1. rewrite app_nil_r. reflexivity.
    + cbn [from_invoke_researcher].
      rewrite (invoke_researcher_no_message _ _ _ Ha Hm). reflexivity.
Qed.

Lemma after_create_quiz_unfold (rest : list Round) (state : GraphState) :
  after_create_quiz rest state =
    match st_additional_info state with
    | Absent => ([], Raise (KeyError "additional_info"))
    | Present a =>
        if eq_str a "false"
        then ([], match return_quiz state with
                  | Ok output => Ok (Finished output)
                  | Raise e => Raise e
                  end)
        else from_invoke_researcher rest state
    end.
Proof.
  unfold after_create_quiz, check_quiz_creation.
  destruct (st_additional_info state) as [|a]; [reflexivity|]. cbn [getitem].
  destruct (eq_str a "false"); cbn [negb].
  - rewrite bind_lift_ok. destruct (return_quiz state); reflexivity.
  - rewrite bind_lift_ok. reflexivity.
Qed.

Lemma same_setup_refl (state : GraphState) : same_setup state state.
Proof. repeat split. Qed.

Lemma same_setup_after_research (state : GraphState) (m : Message) :
  same_setup state (after_research state m).
Proof. repeat split. Qed.

Lemma same_setup_apply_update (u : Update) (state : GraphState) :
  same_setup state (apply_update u state).
Proof. repeat split. Qed.

Lemma same_setup_trans (s1 s2 s3 : GraphState) :
  same_setup s1 s2 -> same_setup s2 s3 -> same_setup s1 s3.
Proof. unfold same_setup. intuition congruence. Qed.

Lemma event_fits_same_setup (state state' : GraphState) (ev : Event) :
  same_setup state state' -> event_fits state' ev -> event_fits state ev.
Proof.
  intros (_ & Ht & Hb & Hf & Hi). destruct ev; cbn [event_fits];
    rewrite ?Ht, ?Hb, ?Hf, ?Hi; trivial.
Qed.

(** ** What a run calls, and with what *)

Lemma retrieval_loop_fits (state : GraphState) (retriever : nat -> Answer (list Document))
    (retries : nat) :
  forall attempt,
    Forall (event_fits state) (trace (retrieval_loop state retriever attempt retries)).
Proof.
  induction retries as [|retries IH]; intros attempt; [constructor|].
  cbn [retrieval_loop]. rewrite bind_emit. unfold trace at 1. cbn [fst].
  constructor; [repeat split|].
  destruct (retriever attempt) as [docs|e]; [constructor|].
  destruct e; try (constructor; fail).
  rewrite !bind_emit. unfold trace. cbn [fst].
  constructor; [exact I|]. constructor; [exact I|]. constructor; [reflexivity|].
  apply IH.
Qed.

Lemma retrieve_context_fits (state : GraphState) (retriever : nat -> Answer (list Document)) :
  Forall (event_fits state) (trace (retrieve_context state retriever)) /\
  (forall ctx, result (retrieve_context state retriever) = Ok ctx -> ctx <> []).
Proof.
  unfold retrieve_context.
  pose proof (retrieval_loop_fits state retriever 5 0) as Hfits.
  destruct (retrieval_loop state retriever 0 5) as [t [[[|d ds]|]|e]];
    unfold trace, result in *; cbn [fst snd bind raise ret] in *;
    rewrite ?app_nil_r; (split; [exact Hfits|]); intros ctx; try discriminate.
  intros [= <-]. discriminate.
Qed.

Lemma create_quiz_fits (state : GraphState) (retriever : nat -> Answer (list Document))
    (content : LlmContent) :
  Forall (event_fits state) (trace (create_quiz state retriever content)).
Proof.
  rewrite create_quiz_unfold. unfold trace at 1. cbn [fst].
  destruct (retrieve_context_fits state retriever) as [Hfits Hctx].
  constructor; [split; reflexivity|]. constructor; [reflexivity|].
  apply Forall_app. split; [exact Hfits|].
  destruct (result (retrieve_context state retriever)) as [ctx|e]; [|constructor].
  constructor; [|constructor]. split; [reflexivity|]. apply Hctx. reflexivity.
Qed.

Lemma from_invoke_researcher_fits (script : list Round) :
  forall state,
    Forall (event_fits state) (trace (from_invoke_researcher script state)).
Proof.
  induction script as [|round rest IH]; intros state.
  - rewrite from_invoke_researcher_nil.
    destruct (st_additional_info state); [constructor|].
    constructor; [repeat split | constructor].
  - rewrite from_invoke_researcher_cons.
    destruct (st_additional_info state); [constructor|].
    destruct (last (resp_messages (agent_response round))) as [m|].
    2:{ constructor; [repeat split | constructor]. }
    cbn zeta. unfold trace at 1. cbn [fst].
    constructor; [repeat split|].
    apply Forall_app. split.
    + eapply Forall_impl; [apply create_quiz_fits|].
      intros ev. apply event_fits_same_setup, same_setup_after_research.
    + destruct (result (create_quiz _ _ _)) as [cmd|e]; [|constructor].
      rewrite after_create_quiz_unfold.
      destruct (st_additional_info _) as [|a]; [constructor|].
      destruct (eq_str a "false"); [constructor|].
      eapply Forall_impl; [apply IH|].
      intros ev. apply event_fits_same_setup.
      eapply same_setup_trans;
        [apply same_setup_after_research | apply same_setup_apply_update].
Qed.




(** Whatever the collaborators answer, the calls of a run are on the setup
    of the input: the index and the bucket of the input are created and
    ingested, the retriever is asked 10 results for the quiz topic on that
    index, every wait is of 5, and the model is called on the quiz topic
    with a context that is not empty.  The run never calls the search agent
    nor uploads. *)
Theorem calls_are_on_the_setup_of_the_input
    (input : GraphInput) (script : list Round) (ev : Event) :
  In ev (trace (graph input script)) ->
  match ev with
  | EvGetOrCreateIndex index bucket =>
      index = in_index_name input /\ bucket = in_bucket_name input
  | EvIngestData index => index = in_index_name input
  | EvRetrieve index number_of_results query =>
      index = in_index_name input /\ number_of_results = 10 /\
      query = in_quiz_topic input
  | EvSleep seconds => seconds = 5
  | EvLlmInvoke topic context => topic = in_quiz_topic input /\ context <> []
  | EvAgentInvoke _ | EvUpload _ => False
  | EvInterrupt _ | EvLogInfo _ => True
  end.
Proof.
  intros Hev.
  pose proof (from_invoke_researcher_fits script (prepare_input input)) as Hfits.
  rewrite Forall_forall in Hfits.
  specialize (Hfits ev (proj2 (list_elem_of_In _ _) Hev)).
  destruct ev; cbn [event_fits] in Hfits; trivial.
Qed.

Lemma calls_are_on_the_setup_of_the_input_witness :
  "black holes" = in_quiz_topic Scenario.input /\ Scenario.documents <> [].
Proof.
  apply (calls_are_on_the_setup_of_the_input Scenario.input
           [Scenario.round_with Scenario.sufficient]
           (EvLlmInvoke "black holes" Scenario.documents)).
  vm_compute. do 4 right. left. reflexivity.
Defined.

(** ** How much a retrieval step and a run can call and wait *)

Lemma list_sum_repeat (a n : nat) : list_sum (repeat a n) = n * a.
Proof.
  unfold list_sum. induction n as [|n IH]; cbn; [reflexivity | rewrite IH; reflexivity].
Qed.

Lemma retrieval_loop_bounds (state : GraphState) (retriever : nat -> Answer (list Document))
    (retries : nat) :
  forall attempt,
    count is_retrieve (trace (retrieval_loop state retriever attempt retries)) <= retries /\
    (0 < retries ->
     1 <= count is_retrieve (trace (retrieval_loop state retriever attempt retries))) /\
    sleeps (trace (retrieval_loop state retriever attempt retries)) =
      repeat 5 (length (sleeps (trace (retrieval_loop state retriever attempt retries)))) /\
    length (sleeps (trace (retrieval_loop state retriever attempt retries))) <=
      count is_retrieve (trace (retrieval_loop state retriever attempt retries)) /\
    (forall v,
       result (retrieval_loop state retriever attempt retries) = Ok (Some v) ->
       S (length (sleeps (trace (retrieval_loop state retriever attempt retries)))) =
         count is_retrieve (trace (retrieval_loop state retriever attempt retries))).
Proof.
  induction retries as [|retries IH]; intros attempt.
  - cbn. repeat split; try lia. discriminate.
  - cbn [retrieval_loop]. rewrite bind_emit.
    destruct (retriever attempt) as [docs|e].
    { cbn. repeat split; lia. }
    destruct e; try (cbn; repeat split; try lia; discriminate).
    rewrite !bind_emit. unfold trace, result. cbn [fst snd sleeps count is_retrieve length].
    destruct (IH (S attempt)) as (Hc & _ & Hs & Hl & Hv).
    unfold trace, result in Hc, Hs, Hl, Hv.
    repeat split; try lia.
    + cbn [repeat]. f_equal. exact Hs.
    + intros v Hres. rewrite (Hv v Hres). reflexivity.
Qed.

Lemma create_quiz_measures
    (state : GraphState) (retriever : nat -> Answer (list Document))
    (content : LlmContent) :
  1 <= count is_retrieve (trace (create_quiz state retriever content)) <= 5 /\
  sleeps (trace (create_quiz state retriever content)) =
    repeat 5 (length (sleeps (trace (create_quiz state retriever content)))) /\
  length (sleeps (trace (create_quiz state retriever content))) <=
    count is_retrieve (trace (create_quiz state retriever content)) /\
  list_sum (sleeps (trace (create_quiz state retriever content))) <= 25 /\
  (forall cmd,
     result (create_quiz state retriever content) = Ok cmd ->
     length (sleeps (trace (create_quiz state retriever content))) <= 4 /\
     count is_llm_invoke (trace (create_quiz state retriever content)) = 1) /\
  (forall e,
     result (create_quiz state retriever content) = Raise e ->
     count is_llm_invoke (trace (create_quiz state retriever content)) = 0).
Proof.
  destruct (retrieval_loop_bounds state retriever 5 0) as (Hc & H1 & Hs & Hl & Hv).
  destruct (retrieval_loop_quiet state retriever 5 0) as [_ Hq].
  specialize (H1 ltac:(lia)).
  assert (Hsum : list_sum (sleeps (trace (retrieval_loop state retriever 0 5))) <= 25)
    by (rewrite Hs, list_sum_repeat; lia).
  rewrite create_quiz_unfold. unfold retrieve_context.
  destruct (retrieval_loop state retriever 0 5) as [t [[[|d ds]|]|e]];
    unfold trace, result in *; cbn [fst snd bind raise ret] in *;
    rewrite ?app_nil_r; cbn [count sleeps is_retrieve is_llm_invoke].
  2:{ rewrite !sleeps_app, !count_app.
      cbn [sleeps count is_retrieve is_llm_invoke]. rewrite !app_nil_r, !Nat.add_0_r, Hq.
      specialize (Hv _ eq_refl).
      repeat split; try lia; try exact Hs; try discriminate. }
  all: rewrite Hq; repeat split; try lia; try exact Hs; discriminate.
Qed.


Lemma create_quiz_interrupts (state : GraphState) (retriever : nat -> Answer (list Document))
    (content : LlmContent) :
  interrupts (trace (create_quiz state retriever content)) = [].
Proof.
  destruct (create_quiz_shape state retriever content)
    as (t & Hi & _ & [[e ->]|(ctx & cmd & ->)]); unfold trace; cbn [fst].
  - exact Hi.
  - rewrite interrupts_app, Hi. reflexivity.
Qed.

Lemma run_measures (script : list Round) :
  forall state,
    count is_llm_invoke (trace (from_invoke_researcher script state)) <= length script /\
    length (interrupts (trace (from_invoke_researcher script state))) <= S (length script) /\
    count is_llm_invoke (trace (from_invoke_researcher script state)) <=
      length (interrupts (trace (from_invoke_researcher script state))) /\
    count is_retrieve (trace (from_invoke_researcher script state)) <= 5 * length script /\
    list_sum (sleeps (trace (from_invoke_researcher script state))) <= 25 * length script.
Proof.
  induction script as [|round rest IH]; intros state.
  - rewrite from_invoke_researcher_nil.
    destruct (st_additional_info state); cbn; repeat split; lia.
  - rewrite from_invoke_researcher_cons.
    destruct (st_additional_info state); [cbn; repeat split; lia|].
    destruct (last (resp_messages (agent_response round))) as [m|];
      [|cbn; repeat split; lia].
    cbn zeta.
    destruct (create_quiz_measures (after_research state m) (retriever round)
                (llm_content round)) as ((_ & Hr) & _ & _ & Hw & Hok & Hraise).
    pose proof (create_quiz_interrupts (after_research state m) (retriever round)
                  (llm_content round)) as Hi.
    set (cq := create_quiz (after_research state m) (retriever round) (llm_content round))
      in *.
    clearbody cq. unfold trace in *. cbn [fst] in *.
    cbn [count is_llm_invoke is_retrieve interrupts sleeps length].
    rewrite !count_app, interrupts_app, sleeps_app, list_sum_app, Hi.
    cbn [app length].
    destruct (result cq) as [cmd|e] eqn:Hres.
    + destruct (Hok cmd eq_refl) as [_ Hllm]. rewrite Hllm.
      rewrite after_create_quiz_unfold.
      destruct (st_additional_info _) as [|a]; [cbn; repeat split; lia|].
      destruct (eq_str a "false"); [cbn; repeat split; lia|].
      destruct (IH (apply_update (update cmd) (after_research state m)))
        as (H1 & H2 & H3 & H4 & H5).
      repeat split; lia.
    + rewrite (Hraise e eq_refl). cbn. repeat split; lia.
Qed.

(** Whatever the collaborators answer, a run over [k] rounds calls the
    model at most [k] times and never more often than it has asked the
    researcher, asks the researcher at most [k + 1] times, calls the
    retriever at most [5 k] times and waits at most [25 k] in all. *)
Theorem run_calls_and_waits_are_bounded (input : GraphInput) (script : list Round) :
  count is_llm_invoke (trace (graph input script)) <= length script /\
  length (interrupts (trace (graph input script))) <= S (length script) /\
  count is_llm_invoke (trace (graph input script)) <=
    length (interrupts (trace (graph input script))) /\
  count is_retrieve (trace (graph input script)) <= 5 * length script /\
  list_sum (sleeps (trace (graph input script))) <= 25 * length script.
Proof. apply run_measures. Qed.

(** ** Where an output comes from *)

Lemma parsed_quiz_valid (content : LlmContent) (r : QuizOrInsufficientInfo) :
  output_parser_parse content = Ok r -> quiz_valid (quiz r) = true.
Proof.
  destruct content as [text|fields]; cbn [output_parser_parse]; [discriminate|].
  rewrite QuizOrInsufficientInfo_validate_valid.
  destruct (quiz_valid (raw_quiz fields)) eqn:Hv; [|discriminate].
  intros [= <-]. exact Hv.
Qed.

Lemma stored_from_more (seen seen' : list Round) (state state' : GraphState) :
  (forall round, In round seen -> In round seen') ->
  st_quiz state' = st_quiz state ->
  st_additional_info state' = st_additional_info state ->
  stored_from seen state -> stored_from seen' state'.
Proof.
  intros Hsub Hq Ha [Habs|(round & r & Hin & Hparse & Hmark & Hquiz)].
  - left. congruence.
  - right. exists round, r. repeat split; [auto | exact Hparse | congruence | congruence].
Qed.

Lemma stored_from_create_quiz (seen : list Round) (round : Round) (state : GraphState) :
  stored_from seen state ->
  stored_from (seen ++ [round])
    (apply_update (update (command_for (llm_content round))) state).
Proof.
  intros Hst. unfold command_for.
  destruct (output_parser_parse (llm_content round)) as [r|e] eqn:Hparse.
  - right. exists round, r. repeat split; [|exact Hparse].
    apply in_or_app. right. left. reflexivity.
  - eapply stored_from_more; [| | |exact Hst]; [|reflexivity|reflexivity].
    intros round' Hin. apply in_or_app. left. exact Hin.
Qed.

Lemma finished_from_parsed_answer (script : list Round) :
  forall seen state out,
    stored_from seen state ->
    result (from_invoke_researcher script state) = Ok (Finished out) ->
    exists round r,
      In round (seen ++ script) /\
      output_parser_parse (llm_content round) = Ok r /\
      additional_info r = Some "false" /\
      quiz r = Some (out_quiz out).
Proof.
  induction script as [|round rest IH]; intros seen state out Hst.
  - rewrite from_invoke_researcher_nil.
    destruct (st_additional_info state); discriminate.
  - rewrite from_invoke_researcher_cons.
    destruct (st_additional_info state) as [|a0] eqn:Ha0; [discriminate|].
    destruct (last (resp_messages (agent_response round))) as [m|]; [|discriminate].
    cbn zeta. unfold result at 1. cbn [snd].
    rewrite create_quiz_unfold. unfold result at 1. cbn [snd].
    destruct (result (retrieve_context _ _)); [|discriminate].
    assert (Hst3 : stored_from (seen ++ [round])
              (apply_update (update (command_for (llm_content round)))
                 (after_research state m))).
    { apply stored_from_create_quiz.
      eapply stored_from_more; [| | |exact Hst]; [auto|reflexivity|reflexivity]. }
    set (state3 := apply_update _ _) in *. clearbody state3.
    rewrite after_create_quiz_unfold.
    destruct (st_additional_info state3) as [|mk] eqn:Ha; [discriminate|].
    destruct (eq_str mk "false") eqn:Hfalse.
    + unfold result. cbn [snd]. unfold return_quiz.
      destruct (st_quiz state3) as [|[q|]] eqn:Hq; cbn; try discriminate.
      intros [= <-]. cbn [out_quiz].
      destruct Hst3 as [Habs|(round' & r & Hin & Hparse & Hmark & Hquiz)];
        [congruence|].
      rewrite Ha in Hmark. injection Hmark as ->. rewrite Hfalse in Hquiz.
      exists round', r. rewrite Hq in Hquiz. injection Hquiz as Hquiz.
      repeat split; [|exact Hparse | apply eq_str_true; exact Hfalse | congruence].
      apply in_app_or in Hin as [Hin|Hin].
      * apply in_or_app. left. exact Hin.
      * apply in_or_app. right. destruct Hin as [<-|[]]. left. reflexivity.
    + intros Hres. destruct (IH _ _ _ Hst3 Hres) as (round' & r & Hin & Hrest).
      exists round', r. split; [|exact Hrest].
      rewrite <- app_assoc in Hin. exact Hin.
Qed.

(** A run that finishes hands out a quiz of the model: the output is the
    quiz of an answer of one of the rounds that parsed with the marker
    "false", and every item of it has its difficulty within [0, 1]. *)
Theorem output_is_a_parsed_quiz_in_bounds
    (input : GraphInput) (script : list Round) (out : GraphOutput) :
  result (graph input script) = Ok (Finished out) ->
  (exists round r,
     In round script /\
     output_parser_parse (llm_content round) = Ok r /\
     additional_info r = Some "false" /\
     quiz r = Some (out_quiz out)) /\
  items_valid (quiz_items (out_quiz out)) = true.
Proof.
  intros Hres.
  destruct (finished_from_parsed_answer script [] (prepare_input input) out)
    as (round & r & Hin & Hparse & Hmark & Hquiz); [left; reflexivity | exact Hres |].
  split; [exists round, r; auto|].
  pose proof (parsed_quiz_valid _ _ Hparse) as Hv. rewrite Hquiz in Hv. exact Hv.
Qed.

Lemma output_is_a_parsed_quiz_in_bounds_witness :
  (exists round r,
     In round [Scenario.round_with (Scenario.gap "mass of Sagittarius A*");
               Scenario.round_with Scenario.sufficient] /\
     output_parser_parse (llm_content round) = Ok r /\
     additional_info r = Some "false" /\
     quiz r = Some (out_quiz {| out_quiz := Scenario.quiz3 |})) /\
  items_valid (quiz_items (out_quiz {| out_quiz := Scenario.quiz3 |})) = true.
Proof.
  apply (output_is_a_parsed_quiz_in_bounds Scenario.input
           [Scenario.round_with (Scenario.gap "mass of Sagittarius A*");
            Scenario.round_with Scenario.sufficient]
           {| out_quiz := Scenario.quiz3 |}).
  vm_compute. reflexivity.
Defined.

(** ** How the conversation grows *)








(** ** Missing answers and missing keys *)



(** A state without the key [additional_info]: [invoke_researcher] raises
    [KeyError] before it makes a request (the default of its [get] covers the
    comparison, not the f-string of line 93), and [check_quiz_creation]
    raises it too.  A state without the key [quiz] makes [return_quiz] raise
    [KeyError], one whose quiz is [None] the validation error of the output. *)
Theorem missing_keys_raise
    (state : GraphState) (response : option AgentResponse) :
  (st_additional_info state = Absent ->
   invoke_researcher state response = ([], Raise (KeyError "additional_info")) /\
   check_quiz_creation state = Raise (KeyError "additional_info")) /\
  (st_quiz state = Absent -> return_quiz state = Raise (KeyError "quiz")) /\
  (st_quiz state = Present None ->
   return_quiz state = Raise (ValidationError "GraphOutput")).
Proof.
  split; [|split].
  - intros Ha. split; [apply invoke_researcher_absent, Ha|].
    unfold check_quiz_creation. rewrite Ha. reflexivity.
  - intros Hq. unfold return_quiz. rewrite Hq. reflexivity.
  - intros Hq. unfold return_quiz. rewrite Hq. reflexivity.
Qed.

Lemma missing_keys_raise_witness :
  return_quiz (prepare_input Scenario.input) = Raise (KeyError "quiz").
Proof.
  apply (proj1 (proj2 (missing_keys_raise (prepare_input Scenario.input) None))).
  reflexivity.
Defined.

(** ** The researcher workflow, at its edges *)

(** A search agent that returns no message: [research_node] raises
    [IndexError] at [result["messages"][-1]], and the workflow raises it
    with nothing uploaded. *)
Theorem research_without_result_uploads_nothing
    (input : ResearcherUploader.GraphInput)
    (agent_result : ResearcherUploader.AgentResult) (T : Z) :
  ResearcherUploader.res_messages agent_result = [] ->
  ResearcherUploader.graph input agent_result T =
    ([EvAgentInvoke (ResearcherUploader.in_messages input)], Raise IndexError) /\
  uploads (trace (ResearcherUploader.graph input agent_result T)) = [].
Proof.
  intros Hempty.
  assert (Hrun : ResearcherUploader.graph input agent_result T =
            ([EvAgentInvoke (ResearcherUploader.in_messages input)], Raise IndexError)).
  { unfold ResearcherUploader.graph, ResearcherUploader.research_node, last_item.
    rewrite Hempty. reflexivity. }
  rewrite Hrun. split; reflexivity.
Qed.

Lemma research_without_result_uploads_nothing_witness :
  ResearcherUploader.graph Scenario.researcher_input
    {| ResearcherUploader.res_messages := [] |} 1700000000 =
    ([EvAgentInvoke Scenario.second_conversation], Raise IndexError) /\
  uploads (trace (ResearcherUploader.graph Scenario.researcher_input
                    {| ResearcherUploader.res_messages := [] |} 1700000000)) = [].
Proof.
  apply (research_without_result_uploads_nothing Scenario.researcher_input
           {| ResearcherUploader.res_messages := [] |} 1700000000 eq_refl).
Defined.



(** ** Blob paths *)

Lemma format_int_inj (z z' : Z) : format_int z = format_int z' -> z = z'.
Proof.
  unfold format_int. intros H. apply DecimalZ.to_int_inj.
  assert (Hnil : forall n, Z.to_int n <> Decimal.Pos Decimal.Nil /\
                           Z.to_int n <> Decimal.Neg Decimal.Nil).
  { intros [|p|p]; cbn; split; try discriminate;
      intros [= Hp]; apply (DecimalPos.Unsigned.to_uint_nonnil p); exact Hp. }
  destruct (Hnil z) as [Hp Hn]. destruct (Hnil z') as [Hp' Hn'].
  pose proof (NilZero.isi _ Hp Hn) as Hz.
  pose proof (NilZero.isi _ Hp' Hn') as Hz'.
  rewrite H in Hz. congruence.
Qed.

Lemma list_ascii_of_string_app (s x : string) :
  String.list_ascii_of_string (s +:+ x) =
    String.list_ascii_of_string s ++ String.list_ascii_of_string x.
Proof. induction s as [|a s IH]; simpl; [reflexivity | f_equal; exact IH]. Qed.

Lemma append_inv_tail (s s' x : string) : s +:+ x = s' +:+ x -> s = s'.
Proof.
  intros H. apply (f_equal String.list_ascii_of_string) in H.
  rewrite !list_ascii_of_string_app in H. apply app_inv_tail in H.
  rewrite <- (String.string_of_list_ascii_of_string s), <- (String.string_of_list_ascii_of_string s').
  rewrite H. reflexivity.
Qed.

(** Two uploads go to the same blob path exactly when they are made at the
    same timestamp: the path is the decimal timestamp followed by ".txt",
    and nothing else of the state enters it. *)
Theorem blob_paths_collide_only_at_the_same_time
    (state state' : ResearcherUploader.GraphState) (T T' : Z) :
  map blob_file_path (uploads (trace (ResearcherUploader.upload_to_bucket state T))) =
    map blob_file_path (uploads (trace (ResearcherUploader.upload_to_bucket state' T')))
  <-> T = T'.
Proof.
  unfold ResearcherUploader.upload_to_bucket. cbn. split.
  - intros [= H]. apply format_int_inj, (append_inv_tail _ _ ".txt"), H.
  - intros ->. reflexivity.
Qed.

(** ** What the retrieval loop logs *)

Lemma logged_app (t u : list Event) : logged (t ++ u) = logged t ++ logged u.
Proof.
  induction t as [|ev t IH]; simpl; [reflexivity|].
  destruct ev; simpl; rewrite IH; reflexivity.
Qed.

Lemma flat_map_after_map {A B C} (g : A -> B) (f : B -> list C) (l : list A) :
  flat_map f (map g l) = flat_map (fun a => f (g a)) l.
Proof. induction l as [|a l IH]; simpl; [reflexivity | rewrite IH; reflexivity]. Qed.

Lemma retrieval_loop_logged (state : GraphState) (retriever : nat -> Answer (list Document))
    (n : nat) :
  forall attempt retries,
    (forall k, k < n -> in_progress (retriever (attempt + k)) = true) ->
    (retries = 0 \/ in_progress (retriever (attempt + n)) = false) ->
    logged (trace (retrieval_loop state retriever attempt (n + retries))) =
      flat_map
        (fun k => [message_of (retriever (attempt + k));
                   format_nat (n + retries - 1 - k) +:+ " retries left"])
        (seq 0 n).
Proof.
  induction n as [|n IH]; intros attempt retries Hbusy Hend.
  - cbn [flat_map seq]. rewrite Nat.add_0_r in Hend. cbn [Nat.add].
    destruct Hend as [-> | Hend]; [reflexivity|].
    destruct retries as [|retries]; [reflexivity|].
    cbn [retrieval_loop]. rewrite bind_emit.
    destruct (retriever attempt) as [docs|e]; [reflexivity|].
    destruct e; try reflexivity. discriminate.
  - assert (H0 : in_progress (retriever attempt) = true).
    { replace attempt with (attempt + 0) by lia. apply Hbusy. lia. }
    change (S n + retries) with (S (n + retries)).
    cbn [retrieval_loop]. rewrite bind_emit.
    destruct (retriever attempt) as [docs|e] eqn:Hr; [discriminate|].
    destruct e; try discriminate.
    rewrite !bind_emit. unfold trace. cbn [fst logged].
    change (fst ?x) with (trace x).
    rewrite (IH (S attempt) retries).
    + cbn [seq flat_map app]. rewrite Nat.add_0_r, Hr. cbn [message_of].
      replace (S (n + retries) - 1 - 0) with (n + retries) by lia.
      f_equal. f_equal. rewrite <- seq_shift, flat_map_after_map.
      apply flat_map_ext. intros k.
      replace (S attempt + k) with (attempt + S k) by lia.
      replace (S (n + retries) - 1 - S k) with (n + retries - 1 - k) by lia.
      reflexivity.
    + intros k Hk. replace (S attempt + k) with (attempt + S k) by lia.
      apply Hbusy. lia.
    + replace (S attempt + n) with (attempt + S n) by lia. exact Hend.
Qed.

(** When the retriever signals ingestion in progress on its first [n <= 5]
    calls and not on the next, the retrieval step logs, for the [k]-th
    signal, the message of the exception and then "[4 - k] retries left":
    the countdown starts at 4 and reaches 0 when the step gives up. *)
Theorem retrieval_logs_a_countdown
    (state : GraphState) (retriever : nat -> Answer (list Document)) (n : nat) :
  n <= 5 ->
  (forall k, k < n -> in_progress (retriever k) = true) ->
  (n = 5 \/ in_progress (retriever n) = false) ->
  logged (trace (retrieve_context state retriever)) =
    flat_map
      (fun k => [message_of (retriever k); format_nat (4 - k) +:+ " retries left"])
      (seq 0 n).
Proof.
  intros Hn Hbusy Hend.
  pose proof (retrieval_loop_logged state retriever n 0 (5 - n) Hbusy) as Hlog.
  replace (n + (5 - n)) with 5 in Hlog by lia. cbn [Nat.add] in Hlog.
  assert (Hlog' : logged (trace (retrieval_loop state retriever 0 5)) =
            flat_map
              (fun k => [message_of (retriever k);
                         format_nat (4 - k) +:+ " retries left"]) (seq 0 n)).
  { rewrite Hlog by (destruct Hend; [left; lia | right; assumption]).
    apply flat_map_ext. intros k. replace (5 - 1 - k) with (4 - k) by lia. reflexivity. }
  unfold retrieve_context. rewrite trace_bind, logged_app, Hlog'.
  destruct (result (retrieval_loop state retriever 0 5)) as [[[|d ds]|]|e];
    cbn; rewrite app_nil_r; reflexivity.
Qed.

Lemma retrieval_logs_a_countdown_witness :
  logged (trace (retrieve_context (prepare_input Scenario.input)
                   (Scenario.busy_then 2 (Returns Scenario.documents)))) =
    ["ingestion in progress"; "4 retries left";
     "ingestion in progress"; "3 retries left"].
Proof.
  apply (retrieval_logs_a_countdown (prepare_input Scenario.input)
           (Scenario.busy_then 2 (Returns Scenario.documents)) 2).
  - lia.
  - intros k Hk. unfold Scenario.busy_then.
    destruct (Nat.ltb_spec k 2); [reflexivity | lia].
  - right. reflexivity.
Defined.

(** ** Requests and model calls take turns *)

Lemma run_alternates (script : list Round) :
  forall state,
    match result (from_invoke_researcher script state) with
    | Ok (Suspended _) =>
        count is_llm_invoke (trace (from_invoke_researcher script state)) = length script /\
        length (interrupts (trace (from_invoke_researcher script state))) =
          S (length script)
    | Ok (Finished _) =>
        length (interrupts (trace (from_invoke_researcher script state))) =
          count is_llm_invoke (trace (from_invoke_researcher script state)) /\
        1 <= count is_llm_invoke (trace (from_invoke_researcher script state))
    | Raise _ => True
    end.
Proof.
  induction script as [|round rest IH]; intros state.
  - rewrite from_invoke_researcher_nil.
    destruct (st_additional_info state); cbn; auto.
  - rewrite from_invoke_researcher_cons.
    destruct (st_additional_info state); [exact I|].
    destruct (last (resp_messages (agent_response round))) as [m|]; [|exact I].
    cbn zeta.
    destruct (create_quiz_measures (after_research state m) (retriever round)
                (llm_content round)) as (_ & _ & _ & _ & Hok & _).
    pose proof (create_quiz_interrupts (after_research state m) (retriever round)
                  (llm_content round)) as Hi.
    set (cq := create_quiz (after_research state m) (retriever round) (llm_content round))
      in *.
    clearbody cq. unfold trace, result in *. cbn [fst snd] in *.
    destruct (snd cq) as [cmd|e]; [|exact I].
    destruct (Hok cmd eq_refl) as [_ Hllm].
    cbn [count is_llm_invoke interrupts length].
    rewrite !count_app, !interrupts_app, Hi, Hllm. cbn [app].
    rewrite after_create_quiz_unfold.
    destruct (st_additional_info _) as [|mk]; [exact I|].
    destruct (eq_str mk "false").
    + cbn [snd fst]. destruct (return_quiz _); [|exact I]. cbn. lia.
    + specialize (IH (apply_update (update cmd) (after_research state m))).
      destruct (snd (from_invoke_researcher rest _)) as [[out|st]|e]; [| |exact I];
        cbn [length]; lia.
Qed.

(** Requests to the researcher and calls of the model take turns.  A run
    is suspended only when the answers are used up: it has then called the
    model once per round and asked the researcher once more.  A run that
    finishes has called the model at least once, and as often as it has
    asked the researcher. *)
Theorem requests_and_model_calls_take_turns (input : GraphInput) (script : list Round) :
  (forall state,
     result (graph input script) = Ok (Suspended state) ->
     count is_llm_invoke (trace (graph input script)) = length script /\
     length (interrupts (trace (graph input script))) = S (length script)) /\
  (forall out,
     result (graph input script) = Ok (Finished out) ->
     length (interrupts (trace (graph input script))) =
       count is_llm_invoke (trace (graph input script)) /\
     1 <= count is_llm_invoke (trace (graph input script))).
Proof.
  pose proof (run_alternates script (prepare_input input)) as H.
  unfold graph. split.
  - intros state Hres. rewrite Hres in H. exact H.
  - intros out Hres. rewrite Hres in H. exact H.
Qed.

Lemma requests_and_model_calls_take_turns_witness :
  length (interrupts (trace (graph Scenario.input
            [Scenario.round_with (Scenario.gap "mass of Sagittarius A*");
             Scenario.round_with Scenario.sufficient;
             Scenario.round_with Scenario.sufficient]))) =
    count is_llm_invoke (trace (graph Scenario.input
            [Scenario.round_with (Scenario.gap "mass of Sagittarius A*");
             Scenario.round_with Scenario.sufficient;
             Scenario.round_with Scenario.sufficient])) /\
  1 <= count is_llm_invoke (trace (graph Scenario.input
            [Scenario.round_with (Scenario.gap "mass of Sagittarius A*");
             Scenario.round_with Scenario.sufficient;
             Scenario.round_with Scenario.sufficient])).
Proof.
  apply (proj2 (requests_and_model_calls_take_turns Scenario.input
                  [Scenario.round_with (Scenario.gap "mass of Sagittarius A*");
                   Scenario.round_with Scenario.sufficient;
                   Scenario.round_with Scenario.sufficient])
           {| out_quiz := Scenario.quiz3 |}).
  vm_compute. reflexivity.
Defined.

(** ** An answer that does not parse, in the middle of a run *)

(** After a gap, an answer that does not parse changes neither the marker
    nor the quiz held: the model has been called once, and the run goes on
    at [invoke_researcher], whose next request is the one it made before. *)
Theorem unparsed_answer_repeats_the_request
    (state : GraphState) (a : option string) (round : Round) (rest : list Round)
    (m : Message) (n : nat) (d : Document) (ds : list Document) (e : Exn) :
  st_additional_info state = Present a ->
  a <> Some "false" ->
  last (resp_messages (agent_response round)) = Some m ->
  settles (retriever round) n (Returns (d :: ds)) ->
  output_parser_parse (llm_content round) = Raise e ->
  exists t,
    from_invoke_researcher (round :: rest) state =
      (t ++ trace (from_invoke_researcher rest (after_research state m)),
       result (from_invoke_researcher rest (after_research state m))) /\
    count is_llm_invoke t = 1 /\
    length (interrupts t) = 1 /\
    request_text (after_research state m) = request_text state /\
    st_quiz (after_research state m) = st_quiz state.
Proof.
  intros Ha Hgap Hm Hset Hparse.
  destruct (from_invoke_researcher_round state a round m n d ds Ha Hm Hset)
    as (t & _ & Hi & Hl & Hrun).
  destruct (unparsed_answer_changes_nothing (after_research state m) _ _ Hparse)
    as (_ & _ & Hsame).
  exists (EvInterrupt (process_for state)
            :: EvGetOrCreateIndex (st_index_name state) (st_bucket_name state)
            :: EvIngestData (st_index_name state)
            :: t ++ [EvLlmInvoke (st_quiz_topic state) (d :: ds)]).
  split; [|split; [|split; [|split]]].
  - rewrite (Hrun rest). cbn zeta. rewrite Hsame.
    rewrite (after_create_quiz_gap rest (after_research state m) a Ha Hgap).
    cbn [app]. rewrite <- app_assoc. reflexivity.
  - cbn [count is_llm_invoke]. rewrite count_app, Hl. reflexivity.
  - cbn [interrupts length]. rewrite interrupts_app, Hi. reflexivity.
  - reflexivity.
  - reflexivity.
Qed.

Lemma unparsed_answer_repeats_the_request_witness :
  exists t,
    from_invoke_researcher [Scenario.round_with Scenario.malformed]
      (apply_update
         (llm_response_update
            {| quiz := None; additional_info := Some "mass of Sagittarius A*" |})
         (prepare_input Scenario.input)) =
      (t ++ trace (from_invoke_researcher []
                     (after_research
                        (apply_update
                           (llm_response_update
                              {| quiz := None;
                                 additional_info := Some "mass of Sagittarius A*" |})
                           (prepare_input Scenario.input))
                        ResearcherUploader.acknowledgment)),
       result (from_invoke_researcher []
                 (after_research
                    (apply_update
                       (llm_response_update
                          {| quiz := None;
                             additional_info := Some "mass of Sagittarius A*" |})
                       (prepare_input Scenario.input))
                    ResearcherUploader.acknowledgment))) /\
    count is_llm_invoke t = 1 /\
    length (interrupts t) = 1 /\
    request_text
      (after_research
         (apply_update
            (llm_response_update
               {| quiz := None; additional_info := Some "mass of Sagittarius A*" |})
            (prepare_input Scenario.input))
         ResearcherUploader.acknowledgment) =
      request_text
        (apply_update
           (llm_response_update
              {| quiz := None; additional_info := Some "mass of Sagittarius A*" |})
           (prepare_input Scenario.input)) /\
    st_quiz
      (after_research
         (apply_update
            (llm_response_update
               {| quiz := None; additional_info := Some "mass of Sagittarius A*" |})
            (prepare_input Scenario.input))
         ResearcherUploader.acknowledgment) =
      st_quiz
        (apply_update
           (llm_response_update
              {| quiz := None; additional_info := Some "mass of Sagittarius A*" |})
           (prepare_input Scenario.input)).
Proof.
  apply (unparsed_answer_repeats_the_request
           (apply_update
              (llm_response_update
                 {| quiz := None; additional_info := Some "mass of Sagittarius A*" |})
              (prepare_input Scenario.input))
           (Some "mass of Sagittarius A*")
           (Scenario.round_with Scenario.malformed) []
           ResearcherUploader.acknowledgment 0
           {| page_content := "Black holes bend light." |} []
           OutputParserException).
  - reflexivity.
  - discriminate.
  - reflexivity.
  - split; [lia|]. split; [intros k Hk; lia | reflexivity].
  - reflexivity.
Defined.

Lemma first_answer_unparsed_raises_witness :
  result (graph Scenario.input
            [Scenario.round_with Scenario.malformed;
             Scenario.round_with Scenario.sufficient]) = Raise (KeyError "quiz").
Proof.
  apply (first_answer_unparsed_raises Scenario.input
           (Scenario.round_with Scenario.malformed)
           [Scenario.round_with Scenario.sufficient] OutputParserException).
  - discriminate.
  - exists 0, {| page_content := "Black holes bend light." |}, [].
    split; [lia|]. split; [intros k Hk; lia | reflexivity].
  - reflexivity.
Defined.

Lemma false_marker_without_quiz_raises_witness :
  result (from_invoke_researcher
            [Scenario.round_with Scenario.false_without_quiz;
             Scenario.round_with Scenario.sufficient]
            (prepare_input Scenario.input)) = Raise (ValidationError "GraphOutput").
Proof.
  apply (false_marker_without_quiz_raises (prepare_input Scenario.input) (Some "false")
           (Scenario.round_with Scenario.false_without_quiz)
           [Scenario.round_with Scenario.sufficient]
           {| quiz := None; additional_info := Some "false" |}).
  - reflexivity.
  - split; [discriminate|]. split; [|vm_compute; reflexivity].
    exists 0, {| page_content := "Black holes bend light." |}, [].
    split; [lia|]. split; [intros k Hk; lia | reflexivity].
  - reflexivity.
  - reflexivity.
Defined.
